(** * Botan TLS handshake state (src/tls/tls_handshake_state.cpp)

    A shallow embedding of [Handshake_State]: the transition tracker (two
    32-bit masks over [Handshake_Type]), the message slots with their
    setters and derived queries, and the algorithm negotiator ([protocol_specific_prf],
    [choose_hash], [choose_sig_format], [understand_sig_format]).

    C++ control flow is kept visible.  A function body is a sequence of
    statements; a statement either falls through or leaves the function by
    [return] or [throw].  Pointers that may be null are [option]s and a
    dereference of a null pointer is the outcome [Null_Dereference]. *)

From Stdlib Require Import ZArith List String Ascii Bool Lia.
From Stdlib Require Import DecimalString.
From Stdlib Require Init.Byte.
Import ListNotations.

Open Scope Z_scope.
Open Scope string_scope.

(** ** Outcomes, exceptions and statements *)

(** The exception classes the file throws, with their [what()] text. *)
Inductive exn : Type :=
| Unexpected_Message (msg : string)
| Decoding_Error (msg : string)
| Internal_Error (msg : string)
| Invalid_Argument (msg : string).

(** How a call ends. *)
Inductive outcome (A : Type) : Type :=
| Return (a : A)
| Throw (e : exn)
| Null_Dereference.

Arguments Return {A} a.
Arguments Throw {A} e.
Arguments Null_Dereference {A}.

(** A statement inside a body of result type [A]: [None] falls through to
    the next statement, [Some r] leaves the function with [r]. *)
Definition stmt (A : Type) : Type := option (outcome A).

Definition fallthrough {A : Type} : stmt A := None.

Definition leave {A : Type} (r : outcome A) : stmt A := Some r.

(** [if (c) return/throw ...;] with no else branch. *)
Definition when {A : Type} (c : bool) (r : outcome A) : stmt A :=
  if c then leave r else fallthrough.

(** Statement followed by statement. *)
Definition seq_stmt {A : Type} (s1 s2 : stmt A) : stmt A :=
  match s1 with
  | Some r => Some r
  | None => s2
  end.

(** Statement followed by the closing [return]/[throw] of the body. *)
Definition body {A : Type} (s : stmt A) (last : outcome A) : outcome A :=
  match s with
  | Some r => r
  | None => last
  end.

(** Dereference of a possibly null pointer, continuing with the pointee. *)
Definition deref {A B : Type} (p : option A) (k : A -> outcome B) : outcome B :=
  match p with
  | Some a => k a
  | None => Null_Dereference
  end.

(** A call whose result, when it returns, is used by what follows. *)
Definition bind {A B : Type} (r : outcome A) (k : A -> outcome B)
  : outcome B :=
  match r with
  | Return a => k a
  | Throw e => Throw e
  | Null_Dereference => Null_Dereference
  end.

Declare Scope stmt_scope.
Delimit Scope stmt_scope with stmt.
Notation "s1 ;; s2" := (seq_stmt s1 s2)
  (at level 61, right associativity) : stmt_scope.
Notation "s ;;; last" := (body s last)
  (at level 62, right associativity) : stmt_scope.

(** [std::to_string] on a non-negative integer value. *)
Definition to_string (z : Z) : string :=
  NilZero.string_of_int (Z.to_int z).

(** ** Handshake message kinds and their bits *)

(** The enumeration [Handshake_Type]: the enumerators that the switch of
    [bitmask_for_handshake_type] names, which are all of them. *)
Inductive Handshake_Type : Type :=
| HELLO_REQUEST
| CLIENT_HELLO
| CLIENT_HELLO_SSLV2
| SERVER_HELLO
| HELLO_VERIFY_REQUEST
| NEW_SESSION_TICKET
| CERTIFICATE
| SERVER_KEX
| CERTIFICATE_REQUEST
| SERVER_HELLO_DONE
| CERTIFICATE_VERIFY
| CLIENT_KEX
| CERTIFICATE_URL
| CERTIFICATE_STATUS
| NEXT_PROTOCOL
| HANDSHAKE_CCS
| FINISHED
| HANDSHAKE_NONE.

(** [bitmask_for_handshake_type].  The switch covers every enumerator, so
    the [throw Internal_Error("Unknown handshake type ...")] after it is
    reached by no value of the enumeration. *)
Definition bitmask_for_handshake_type (type : Handshake_Type) : Z :=
  match type with
  | HELLO_VERIFY_REQUEST => Z.shiftl 1 0
  | HELLO_REQUEST => Z.shiftl 1 1
  | CLIENT_HELLO | CLIENT_HELLO_SSLV2 => Z.shiftl 1 2
  | SERVER_HELLO => Z.shiftl 1 3
  | CERTIFICATE => Z.shiftl 1 4
  | CERTIFICATE_URL => Z.shiftl 1 5
  | CERTIFICATE_STATUS => Z.shiftl 1 6
  | SERVER_KEX => Z.shiftl 1 7
  | CERTIFICATE_REQUEST => Z.shiftl 1 8
  | SERVER_HELLO_DONE => Z.shiftl 1 9
  | CERTIFICATE_VERIFY => Z.shiftl 1 10
  | CLIENT_KEX => Z.shiftl 1 11
  | NEXT_PROTOCOL => Z.shiftl 1 12
  | NEW_SESSION_TICKET => Z.shiftl 1 13
  | HANDSHAKE_CCS => Z.shiftl 1 14
  | FINISHED => Z.shiftl 1 15
  | HANDSHAKE_NONE => 0
  end.

(** Conversion of a [u32bit] to [bool]. *)
Definition nonzero (m : Z) : bool := negb (Z.eqb m 0).

(** ** Protocol version *)

(** Modelled from the spec: the class [Protocol_Version] is declared in
    tls_version.h, which is not part of this file.  The spec describes it
    as a value that distinguishes SSLv3, TLS 1.0, 1.1, 1.2+ and the
    matching DTLS versions, with unrecognized values possible, and with two
    capability predicates that are both true only at TLS 1.2+ / DTLS 1.2+.
    A version is the pair of the major and minor bytes of the record
    layer; DTLS minor bytes count downwards (1.0 is 254.255, 1.2 is
    254.253). *)
Module Protocol_Version.

Record t : Type := make { major_version : Z; minor_version : Z }.

Definition SSL_V3 : t := make 3 0.
Definition TLS_V10 : t := make 3 1.
Definition TLS_V11 : t := make 3 2.
Definition TLS_V12 : t := make 3 3.
Definition DTLS_V10 : t := make 254 255.
Definition DTLS_V12 : t := make 254 253.

(** [operator==]. *)
Definition eqb (a b : t) : bool :=
  Z.eqb (major_version a) (major_version b)
  && Z.eqb (minor_version a) (minor_version b).

Definition tls12_or_later (v : t) : bool :=
  Z.eqb (major_version v) 3 && Z.leb 3 (minor_version v)
  || Z.eqb (major_version v) 254 && Z.leb (minor_version v) 253.

Definition supports_ciphersuite_specific_prf (v : t) : bool :=
  tls12_or_later v.

Definition supports_negotiable_signature_algorithms (v : t) : bool :=
  tls12_or_later v.

(** The versions the spec names as recognized. *)
Definition known_version (v : t) : bool :=
  eqb v SSL_V3 || eqb v TLS_V10 || eqb v TLS_V11 || eqb v TLS_V12
  || eqb v DTLS_V10 || eqb v DTLS_V12.

(** Text of a version, used only inside an error message. *)
Definition to_string (v : t) : string :=
  to_string (major_version v) ++ "." ++ to_string (minor_version v).

End Protocol_Version.

(** ** Cipher suite, policy, keys and messages *)

(** Modelled from the spec: [Ciphersuite] (tls_ciphersuite.h) exposes a
    MAC/digest algorithm name, a key-exchange algorithm name and a validity
    flag that distinguishes "no suite chosen yet". *)
Record Ciphersuite : Type := {
  valid : bool;
  kex_algo : string;
  mac_algo : string
}.

(** Modelled from the spec: [Policy] (tls_policy.h) exposes
    [allowed_signature_hashes()], an ordered list of acceptable hash
    algorithm names, most preferred first. *)
Record Policy : Type := {
  allowed_signature_hashes : list string
}.

(** Modelled from the spec: [Public_Key] and [Private_Key] (pk_keys.h);
    the negotiator derives the signature algorithm name from the key type
    through [algo_name()] and reads nothing else of a key. *)
Record Public_Key : Type := { algo_name : string }.
Record Private_Key : Type := { private_algo_name : string }.

Inductive Signature_Format : Type := IEEE_1363 | DER_SEQUENCE.

(** A (hash, signature algorithm) pair as the counterpart advertises it:
    [std::pair<std::string, std::string>]. *)
Definition sig_pair : Type := (string * string)%type.

(** Modelled from the spec: the message classes of tls_messages.h, with
    the accessors this file calls: the advertised pair lists of ClientHello
    and CertificateRequest, the session ticket and SRP identifier of
    ClientHello, and the ticket bytes of NewSessionTicket. *)
Record Client_Hello : Type := {
  client_hello_supported_algos : list sig_pair;
  client_hello_session_ticket : list Byte.byte;
  client_hello_srp_identifier : string
}.

Record Certificate_Req : Type := {
  cert_req_supported_algos : list sig_pair
}.

Record New_Session_Ticket : Type := {
  ticket : list Byte.byte
}.

(** Messages this file stores and never looks into. *)
Inductive Server_Hello : Type := Server_Hello_msg (contents : list Byte.byte).
Inductive Certificate : Type := Certificate_msg (contents : list Byte.byte).
Inductive Server_Key_Exchange : Type :=
  Server_Key_Exchange_msg (contents : list Byte.byte).
Inductive Server_Hello_Done : Type :=
  Server_Hello_Done_msg (contents : list Byte.byte).
Inductive Client_Key_Exchange : Type :=
  Client_Key_Exchange_msg (contents : list Byte.byte).
Inductive Certificate_Verify : Type :=
  Certificate_Verify_msg (contents : list Byte.byte).
Inductive Next_Protocol : Type := Next_Protocol_msg (contents : list Byte.byte).
Inductive Finished : Type := Finished_msg (contents : list Byte.byte).

(** ** The handshake state object *)

(** The members this file reads or writes.  A message slot is a
    [unique_ptr]: [None] is the null pointer of a slot never set. *)
Record Handshake_State : Type := {
  m_version : Protocol_Version.t;
  suite : Ciphersuite;
  m_hand_expecting_mask : Z;
  m_hand_received_mask : Z;
  m_client_hello : option Client_Hello;
  m_server_hello : option Server_Hello;
  m_server_certs : option Certificate;
  m_server_kex : option Server_Key_Exchange;
  m_cert_req : option Certificate_Req;
  m_server_hello_done : option Server_Hello_Done;
  m_client_certs : option Certificate;
  m_client_kex : option Client_Key_Exchange;
  m_client_verify : option Certificate_Verify;
  m_next_protocol : option Next_Protocol;
  m_new_session_ticket : option New_Session_Ticket;
  m_server_finished : option Finished;
  m_client_finished : option Finished
}.

(** Member updates. *)
Definition with_version (v : Protocol_Version.t) (s : Handshake_State) :=
  {| m_version := v; suite := suite s;
     m_hand_expecting_mask := m_hand_expecting_mask s;
     m_hand_received_mask := m_hand_received_mask s;
     m_client_hello := m_client_hello s; m_server_hello := m_server_hello s;
     m_server_certs := m_server_certs s; m_server_kex := m_server_kex s;
     m_cert_req := m_cert_req s; m_server_hello_done := m_server_hello_done s;
     m_client_certs := m_client_certs s; m_client_kex := m_client_kex s;
     m_client_verify := m_client_verify s; m_next_protocol := m_next_protocol s;
     m_new_session_ticket := m_new_session_ticket s;
     m_server_finished := m_server_finished s;
     m_client_finished := m_client_finished s |}.

Definition with_masks (expecting received : Z) (s : Handshake_State) :=
  {| m_version := m_version s; suite := suite s;
     m_hand_expecting_mask := expecting;
     m_hand_received_mask := received;
     m_client_hello := m_client_hello s; m_server_hello := m_server_hello s;
     m_server_certs := m_server_certs s; m_server_kex := m_server_kex s;
     m_cert_req := m_cert_req s; m_server_hello_done := m_server_hello_done s;
     m_client_certs := m_client_certs s; m_client_kex := m_client_kex s;
     m_client_verify := m_client_verify s; m_next_protocol := m_next_protocol s;
     m_new_session_ticket := m_new_session_ticket s;
     m_server_finished := m_server_finished s;
     m_client_finished := m_client_finished s |}.

(** *** Message store: setters

    Each setter is [m_slot.reset(p)]: the slot now owns [p], which may be
    the null pointer. *)

Definition set_client_hello (p : option Client_Hello)
  (s : Handshake_State) : Handshake_State :=
  {| m_version := m_version s; suite := suite s;
     m_hand_expecting_mask := m_hand_expecting_mask s;
     m_hand_received_mask := m_hand_received_mask s; m_client_hello := p;
     m_server_hello := m_server_hello s;
     m_server_certs := m_server_certs s; m_server_kex := m_server_kex s;
     m_cert_req := m_cert_req s;
     m_server_hello_done := m_server_hello_done s;
     m_client_certs := m_client_certs s; m_client_kex := m_client_kex s;
     m_client_verify := m_client_verify s;
     m_next_protocol := m_next_protocol s;
     m_new_session_ticket := m_new_session_ticket s;
     m_server_finished := m_server_finished s;
     m_client_finished := m_client_finished s |}.

Definition set_server_hello (p : option Server_Hello)
  (s : Handshake_State) : Handshake_State :=
  {| m_version := m_version s; suite := suite s;
     m_hand_expecting_mask := m_hand_expecting_mask s;
     m_hand_received_mask := m_hand_received_mask s;
     m_client_hello := m_client_hello s; m_server_hello := p;
     m_server_certs := m_server_certs s; m_server_kex := m_server_kex s;
     m_cert_req := m_cert_req s;
     m_server_hello_done := m_server_hello_done s;
     m_client_certs := m_client_certs s; m_client_kex := m_client_kex s;
     m_client_verify := m_client_verify s;
     m_next_protocol := m_next_protocol s;
     m_new_session_ticket := m_new_session_ticket s;
     m_server_finished := m_server_finished s;
     m_client_finished := m_client_finished s |}.

Definition set_server_certs (p : option Certificate)
  (s : Handshake_State) : Handshake_State :=
  {| m_version := m_version s; suite := suite s;
     m_hand_expecting_mask := m_hand_expecting_mask s;
     m_hand_received_mask := m_hand_received_mask s;
     m_client_hello := m_client_hello s;
     m_server_hello := m_server_hello s; m_server_certs := p;
     m_server_kex := m_server_kex s; m_cert_req := m_cert_req s;
     m_server_hello_done := m_server_hello_done s;
     m_client_certs := m_client_certs s; m_client_kex := m_client_kex s;
     m_client_verify := m_client_verify s;
     m_next_protocol := m_next_protocol s;
     m_new_session_ticket := m_new_session_ticket s;
     m_server_finished := m_server_finished s;
     m_client_finished := m_client_finished s |}.

Definition set_server_kex (p : option Server_Key_Exchange)
  (s : Handshake_State) : Handshake_State :=
  {| m_version := m_version s; suite := suite s;
     m_hand_expecting_mask := m_hand_expecting_mask s;
     m_hand_received_mask := m_hand_received_mask s;
     m_client_hello := m_client_hello s;
     m_server_hello := m_server_hello s;
     m_server_certs := m_server_certs s; m_server_kex := p;
     m_cert_req := m_cert_req s;
     m_server_hello_done := m_server_hello_done s;
     m_client_certs := m_client_certs s; m_client_kex := m_client_kex s;
     m_client_verify := m_client_verify s;
     m_next_protocol := m_next_protocol s;
     m_new_session_ticket := m_new_session_ticket s;
     m_server_finished := m_server_finished s;
     m_client_finished := m_client_finished s |}.

Definition set_cert_req (p : option Certificate_Req)
  (s : Handshake_State) : Handshake_State :=
  {| m_version := m_version s; suite := suite s;
     m_hand_expecting_mask := m_hand_expecting_mask s;
     m_hand_received_mask := m_hand_received_mask s;
     m_client_hello := m_client_hello s;
     m_server_hello := m_server_hello s;
     m_server_certs := m_server_certs s; m_server_kex := m_server_kex s;
     m_cert_req := p; m_server_hello_done := m_server_hello_done s;
     m_client_certs := m_client_certs s; m_client_kex := m_client_kex s;
     m_client_verify := m_client_verify s;
     m_next_protocol := m_next_protocol s;
     m_new_session_ticket := m_new_session_ticket s;
     m_server_finished := m_server_finished s;
     m_client_finished := m_client_finished s |}.

Definition set_server_hello_done (p : option Server_Hello_Done)
  (s : Handshake_State) : Handshake_State :=
  {| m_version := m_version s; suite := suite s;
     m_hand_expecting_mask := m_hand_expecting_mask s;
     m_hand_received_mask := m_hand_received_mask s;
     m_client_hello := m_client_hello s;
     m_server_hello := m_server_hello s;
     m_server_certs := m_server_certs s; m_server_kex := m_server_kex s;
     m_cert_req := m_cert_req s; m_server_hello_done := p;
     m_client_certs := m_client_certs s; m_client_kex := m_client_kex s;
     m_client_verify := m_client_verify s;
     m_next_protocol := m_next_protocol s;
     m_new_session_ticket := m_new_session_ticket s;
     m_server_finished := m_server_finished s;
     m_client_finished := m_client_finished s |}.

Definition set_client_certs (p : option Certificate)
  (s : Handshake_State) : Handshake_State :=
  {| m_version := m_version s; suite := suite s;
     m_hand_expecting_mask := m_hand_expecting_mask s;
     m_hand_received_mask := m_hand_received_mask s;
     m_client_hello := m_client_hello s;
     m_server_hello := m_server_hello s;
     m_server_certs := m_server_certs s; m_server_kex := m_server_kex s;
     m_cert_req := m_cert_req s;
     m_server_hello_done := m_server_hello_done s; m_client_certs := p;
     m_client_kex := m_client_kex s; m_client_verify := m_client_verify s;
     m_next_protocol := m_next_protocol s;
     m_new_session_ticket := m_new_session_ticket s;
     m_server_finished := m_server_finished s;
     m_client_finished := m_client_finished s |}.

Definition set_client_kex (p : option Client_Key_Exchange)
  (s : Handshake_State) : Handshake_State :=
  {| m_version := m_version s; suite := suite s;
     m_hand_expecting_mask := m_hand_expecting_mask s;
     m_hand_received_mask := m_hand_received_mask s;
     m_client_hello := m_client_hello s;
     m_server_hello := m_server_hello s;
     m_server_certs := m_server_certs s; m_server_kex := m_server_kex s;
     m_cert_req := m_cert_req s;
     m_server_hello_done := m_server_hello_done s;
     m_client_certs := m_client_certs s; m_client_kex := p;
     m_client_verify := m_client_verify s;
     m_next_protocol := m_next_protocol s;
     m_new_session_ticket := m_new_session_ticket s;
     m_server_finished := m_server_finished s;
     m_client_finished := m_client_finished s |}.

Definition set_client_verify (p : option Certificate_Verify)
  (s : Handshake_State) : Handshake_State :=
  {| m_version := m_version s; suite := suite s;
     m_hand_expecting_mask := m_hand_expecting_mask s;
     m_hand_received_mask := m_hand_received_mask s;
     m_client_hello := m_client_hello s;
     m_server_hello := m_server_hello s;
     m_server_certs := m_server_certs s; m_server_kex := m_server_kex s;
     m_cert_req := m_cert_req s;
     m_server_hello_done := m_server_hello_done s;
     m_client_certs := m_client_certs s; m_client_kex := m_client_kex s;
     m_client_verify := p; m_next_protocol := m_next_protocol s;
     m_new_session_ticket := m_new_session_ticket s;
     m_server_finished := m_server_finished s;
     m_client_finished := m_client_finished s |}.

Definition set_next_protocol (p : option Next_Protocol)
  (s : Handshake_State) : Handshake_State :=
  {| m_version := m_version s; suite := suite s;
     m_hand_expecting_mask := m_hand_expecting_mask s;
     m_hand_received_mask := m_hand_received_mask s;
     m_client_hello := m_client_hello s;
     m_server_hello := m_server_hello s;
     m_server_certs := m_server_certs s; m_server_kex := m_server_kex s;
     m_cert_req := m_cert_req s;
     m_server_hello_done := m_server_hello_done s;
     m_client_certs := m_client_certs s; m_client_kex := m_client_kex s;
     m_client_verify := m_client_verify s; m_next_protocol := p;
     m_new_session_ticket := m_new_session_ticket s;
     m_server_finished := m_server_finished s;
     m_client_finished := m_client_finished s |}.

Definition set_new_session_ticket (p : option New_Session_Ticket)
  (s : Handshake_State) : Handshake_State :=
  {| m_version := m_version s; suite := suite s;
     m_hand_expecting_mask := m_hand_expecting_mask s;
     m_hand_received_mask := m_hand_received_mask s;
     m_client_hello := m_client_hello s;
     m_server_hello := m_server_hello s;
     m_server_certs := m_server_certs s; m_server_kex := m_server_kex s;
     m_cert_req := m_cert_req s;
     m_server_hello_done := m_server_hello_done s;
     m_client_certs := m_client_certs s; m_client_kex := m_client_kex s;
     m_client_verify := m_client_verify s;
     m_next_protocol := m_next_protocol s; m_new_session_ticket := p;
     m_server_finished := m_server_finished s;
     m_client_finished := m_client_finished s |}.

Definition set_server_finished (p : option Finished)
  (s : Handshake_State) : Handshake_State :=
  {| m_version := m_version s; suite := suite s;
     m_hand_expecting_mask := m_hand_expecting_mask s;
     m_hand_received_mask := m_hand_received_mask s;
     m_client_hello := m_client_hello s;
     m_server_hello := m_server_hello s;
     m_server_certs := m_server_certs s; m_server_kex := m_server_kex s;
     m_cert_req := m_cert_req s;
     m_server_hello_done := m_server_hello_done s;
     m_client_certs := m_client_certs s; m_client_kex := m_client_kex s;
     m_client_verify := m_client_verify s;
     m_next_protocol := m_next_protocol s;
     m_new_session_ticket := m_new_session_ticket s;
     m_server_finished := p; m_client_finished := m_client_finished s |}.

Definition set_client_finished (p : option Finished)
  (s : Handshake_State) : Handshake_State :=
  {| m_version := m_version s; suite := suite s;
     m_hand_expecting_mask := m_hand_expecting_mask s;
     m_hand_received_mask := m_hand_received_mask s;
     m_client_hello := m_client_hello s;
     m_server_hello := m_server_hello s;
     m_server_certs := m_server_certs s; m_server_kex := m_server_kex s;
     m_cert_req := m_cert_req s;
     m_server_hello_done := m_server_hello_done s;
     m_client_certs := m_client_certs s; m_client_kex := m_client_kex s;
     m_client_verify := m_client_verify s;
     m_next_protocol := m_next_protocol s;
     m_new_session_ticket := m_new_session_ticket s;
     m_server_finished := m_server_finished s; m_client_finished := p |}.

(** *** Message store: getters *)

Definition version (s : Handshake_State) : Protocol_Version.t := m_version s.
Definition client_hello (s : Handshake_State) := m_client_hello s.
Definition cert_req (s : Handshake_State) := m_cert_req s.
Definition new_session_ticket (s : Handshake_State) := m_new_session_ticket s.

(** [set_version]. *)
Definition set_version (v : Protocol_Version.t) (s : Handshake_State)
  : Handshake_State := with_version v s.

(** [vector::empty()]. *)
Definition empty {A : Type} (l : list A) : bool :=
  match l with
  | [] => true
  | _ :: _ => false
  end.

(** [srp_identifier]. *)
Definition srp_identifier (s : Handshake_State) : outcome string :=
  (when (valid (suite s) && String.eqb (kex_algo (suite s)) "SRP_SHA")
        (deref (client_hello s)
               (fun ch => Return (client_hello_srp_identifier ch)))
   ;;; Return "")%stmt.

(** [session_ticket].  The [&&] does not look at the ticket of a null
    [new_session_ticket()]. *)
Definition session_ticket (s : Handshake_State) : outcome (list Byte.byte) :=
  (match new_session_ticket s with
   | Some nst => when (negb (empty (ticket nst))) (Return (ticket nst))
   | None => fallthrough
   end
   ;;; deref (client_hello s)
             (fun ch => Return (client_hello_session_ticket ch)))%stmt.

(** ** Transition tracker *)

(** [set_expected_next]. *)
Definition set_expected_next (handshake_msg : Handshake_Type)
  (s : Handshake_State) : Handshake_State :=
  with_masks
    (Z.lor (m_hand_expecting_mask s)
           (bitmask_for_handshake_type handshake_msg))
    (m_hand_received_mask s) s.

(** [received_handshake_msg]. *)
Definition received_handshake_msg (handshake_msg : Handshake_Type)
  (s : Handshake_State) : bool :=
  let mask := bitmask_for_handshake_type handshake_msg in
  nonzero (Z.land (m_hand_received_mask s) mask).

Section Transition_Tracker.

(** The integer value of each enumerator of [Handshake_Type].  The
    enumeration is declared in tls_magic.h, which is not part of this
    file; the values only show in the text of the error message. *)
Variable enum_value : Handshake_Type -> Z.

(** [confirm_transition_to].  The object outlives a thrown exception, so
    the call yields the state it leaves behind together with how it
    ended. *)
Definition confirm_transition_to (handshake_msg : Handshake_Type)
  (s : Handshake_State) : Handshake_State * outcome unit :=
  let mask := bitmask_for_handshake_type handshake_msg in
  let s1 :=
    with_masks (m_hand_expecting_mask s)
               (Z.lor (m_hand_received_mask s) mask) s in
  let ok := nonzero (Z.land (m_hand_expecting_mask s1) mask) in
  if negb ok then
    (s1,
     Throw (Unexpected_Message
              ("Unexpected state transition in handshake, got "
               ++ to_string (enum_value handshake_msg)
               ++ " expected " ++ to_string (m_hand_expecting_mask s1)
               ++ " received " ++ to_string (m_hand_received_mask s1))))
  else
    (with_masks 0 (m_hand_received_mask s1) s1, Return tt).

(** The member functions of this file that change the object, and
    [Const_member] for any of the const ones. *)
Inductive call : Type :=
| Call_client_hello (p : option Client_Hello)
| Call_server_hello (p : option Server_Hello)
| Call_server_certs (p : option Certificate)
| Call_server_kex (p : option Server_Key_Exchange)
| Call_cert_req (p : option Certificate_Req)
| Call_server_hello_done (p : option Server_Hello_Done)
| Call_client_certs (p : option Certificate)
| Call_client_kex (p : option Client_Key_Exchange)
| Call_client_verify (p : option Certificate_Verify)
| Call_next_protocol (p : option Next_Protocol)
| Call_new_session_ticket (p : option New_Session_Ticket)
| Call_server_finished (p : option Finished)
| Call_client_finished (p : option Finished)
| Call_set_version (v : Protocol_Version.t)
| Call_confirm_transition_to (k : Handshake_Type)
| Call_set_expected_next (k : Handshake_Type)
| Const_member.

Definition is_set_expected_next (c : call) : bool :=
  match c with
  | Call_set_expected_next _ => true
  | _ => false
  end.

(** The state one call leaves behind, whether it returned or threw. *)
Definition exec (c : call) (s : Handshake_State) : Handshake_State :=
  match c with
  | Call_client_hello p => set_client_hello p s
  | Call_server_hello p => set_server_hello p s
  | Call_server_certs p => set_server_certs p s
  | Call_server_kex p => set_server_kex p s
  | Call_cert_req p => set_cert_req p s
  | Call_server_hello_done p => set_server_hello_done p s
  | Call_client_certs p => set_client_certs p s
  | Call_client_kex p => set_client_kex p s
  | Call_client_verify p => set_client_verify p s
  | Call_next_protocol p => set_next_protocol p s
  | Call_new_session_ticket p => set_new_session_ticket p s
  | Call_server_finished p => set_server_finished p s
  | Call_client_finished p => set_client_finished p s
  | Call_set_version v => set_version v s
  | Call_confirm_transition_to k => fst (confirm_transition_to k s)
  | Call_set_expected_next k => set_expected_next k s
  | Const_member => s
  end.

Fixpoint run (cs : list call) (s : Handshake_State) : Handshake_State :=
  match cs with
  | [] => s
  | c :: cs' => run cs' (exec c s)
  end.

End Transition_Tracker.

(** The enumerator values of the TLS handshake-type registry, with the
    three values outside the registry that Botan uses for its own kinds;
    an instance of [enum_value] for the examples below. *)
Definition tls_enum_value (k : Handshake_Type) : Z :=
  match k with
  | HELLO_REQUEST => 0
  | CLIENT_HELLO => 1
  | CLIENT_HELLO_SSLV2 => 253
  | SERVER_HELLO => 2
  | HELLO_VERIFY_REQUEST => 3
  | NEW_SESSION_TICKET => 4
  | CERTIFICATE => 11
  | SERVER_KEX => 12
  | CERTIFICATE_REQUEST => 13
  | SERVER_HELLO_DONE => 14
  | CERTIFICATE_VERIFY => 15
  | CLIENT_KEX => 16
  | CERTIFICATE_URL => 21
  | CERTIFICATE_STATUS => 22
  | NEXT_PROTOCOL => 67
  | HANDSHAKE_CCS => 254
  | FINISHED => 20
  | HANDSHAKE_NONE => 255
  end.

(** ** Algorithm negotiator *)

Section PRF_Selection.

(** [get_kdf] of lookup.h, which is not part of this file: the lookup of
    a key-derivation function by name.  Whatever it does for a name,
    returning a handle or throwing, is what the caller sees. *)
Variable KDF : Type.
Variable get_kdf : string -> outcome KDF.

(** [protocol_specific_prf].  The if/else-if/else chain is followed by
    [throw Internal_Error("Unknown version code ...")]. *)
Definition protocol_specific_prf (s : Handshake_State) : outcome KDF :=
  ((if Protocol_Version.eqb (version s) Protocol_Version.SSL_V3 then
      leave (get_kdf "SSL3-PRF")
    else if Protocol_Version.supports_ciphersuite_specific_prf (version s)
    then
      when (String.eqb (mac_algo (suite s)) "MD5"
            || String.eqb (mac_algo (suite s)) "SHA-1")
           (get_kdf "TLS-12-PRF(SHA-256)") ;;
      leave (get_kdf ("TLS-12-PRF(" ++ mac_algo (suite s) ++ ")"))
    else
      leave (get_kdf "TLS-PRF"))
   ;;; Throw (Internal_Error
                ("Unknown version code "
                 ++ Protocol_Version.to_string (version s))))%stmt.

End PRF_Selection.

(** A range-based [for] whose body may leave the function. *)
Fixpoint for_each {A B : Type} (l : list A) (loop_body : A -> stmt B)
  : stmt B :=
  match l with
  | [] => fallthrough
  | x :: l' => (loop_body x ;; for_each l' loop_body)%stmt
  end.

(** [choose_hash]. *)
Definition choose_hash (sig_algo : string)
  (negotiated_version : Protocol_Version.t) (policy : Policy)
  (for_client_auth : bool) (client_hello : option Client_Hello)
  (cert_req : option Certificate_Req) : outcome string :=
  ((if negb (Protocol_Version.supports_negotiable_signature_algorithms
               negotiated_version)
    then
      when (for_client_auth
            && Protocol_Version.eqb negotiated_version Protocol_Version.SSL_V3)
           (Return "Raw") ;;
      when (String.eqb sig_algo "RSA") (Return "TLS.Digest.0") ;;
      when (String.eqb sig_algo "DSA") (Return "SHA-1") ;;
      when (String.eqb sig_algo "ECDSA") (Return "SHA-1") ;;
      leave (Throw (Internal_Error ("Unknown TLS signature algo " ++ sig_algo)))
    else fallthrough)
   ;;; bind (if for_client_auth
             then deref cert_req
                        (fun m => Return (cert_req_supported_algos m))
             else deref client_hello
                        (fun m => Return (client_hello_supported_algos m)))
         (fun supported_algos =>
            (if negb (empty supported_algos) then
               let hashes := allowed_signature_hashes policy in
               for_each hashes (fun hash =>
                 for_each supported_algos (fun algo =>
                   when (String.eqb (fst algo) hash
                         && String.eqb (snd algo) sig_algo)
                        (Return hash)))
             else fallthrough)
            ;;; Return "SHA-1"))%stmt.

(** [choose_sig_format].  [hash_algo_out] and [sig_algo_out] are reference
    parameters: the call yields what they hold afterwards together with how
    it ended.  [key] is the key object that the pointer of the source refers
    to; a call with a null key pointer is not modelled. *)
Definition choose_sig_format (s : Handshake_State) (key : Private_Key)
  (hash_algo_out sig_algo_out : string) (for_client_auth : bool)
  (policy : Policy)
  : (string * string) * outcome (string * Signature_Format) :=
  let sig_algo := private_algo_name key in
  match
    choose_hash sig_algo (version s) policy for_client_auth
                (client_hello s) (cert_req s)
  with
  | Return hash_algo =>
      let outs :=
        if Protocol_Version.supports_negotiable_signature_algorithms
             (version s)
        then (hash_algo, sig_algo)
        else (hash_algo_out, sig_algo_out) in
      (outs,
       ((if String.eqb sig_algo "RSA" then
           let padding := "EMSA3(" ++ hash_algo ++ ")" in
           leave (Return (padding, IEEE_1363))
         else if String.eqb sig_algo "DSA" || String.eqb sig_algo "ECDSA" then
           let padding := "EMSA1(" ++ hash_algo ++ ")" in
           leave (Return (padding, DER_SEQUENCE))
         else fallthrough)
        ;;; Throw (Invalid_Argument
                     (sig_algo ++ " is invalid/unknown for TLS signatures")))%stmt)
  | Throw e => ((hash_algo_out, sig_algo_out), Throw e)
  | Null_Dereference => ((hash_algo_out, sig_algo_out), Null_Dereference)
  end.

(** [understand_sig_format].  [hash_algo] is a by-value parameter that the
    body overwrites.  [key] is the key object that the pointer of the source
    refers to; a call with a null key pointer is not modelled. *)
Definition understand_sig_format (s : Handshake_State) (key : Public_Key)
  (hash_algo sig_algo : string) (for_client_auth : bool)
  : outcome (string * Signature_Format) :=
  let algo_name := algo_name key in
  ((if Protocol_Version.supports_negotiable_signature_algorithms (version s)
    then
      when (String.eqb hash_algo "")
           (Throw (Decoding_Error "Counterparty did not send hash/sig IDS")) ;;
      when (negb (String.eqb sig_algo algo_name))
           (Throw (Decoding_Error
                     "Counterparty sent inconsistent key and sig types"))
    else
      when (negb (String.eqb hash_algo "") || negb (String.eqb sig_algo ""))
           (Throw (Decoding_Error
                     "Counterparty sent hash/sig IDs with old version"))) ;;
   (if String.eqb algo_name "RSA" then
      let hash_algo :=
        if for_client_auth
           && Protocol_Version.eqb (version s) Protocol_Version.SSL_V3
        then "Raw"
        else if negb (Protocol_Version.supports_negotiable_signature_algorithms
                        (version s))
        then "TLS.Digest.0"
        else hash_algo in
      let padding := "EMSA3(" ++ hash_algo ++ ")" in
      leave (Return (padding, IEEE_1363))
    else if String.eqb algo_name "DSA" || String.eqb algo_name "ECDSA" then
      let hash_algo :=
        if String.eqb algo_name "DSA" && for_client_auth
           && Protocol_Version.eqb (version s) Protocol_Version.SSL_V3
        then "Raw"
        else if negb (Protocol_Version.supports_negotiable_signature_algorithms
                        (version s))
        then "SHA-1"
        else hash_algo in
      let padding := "EMSA1(" ++ hash_algo ++ ")" in
      leave (Return (padding, DER_SEQUENCE))
    else fallthrough)
   ;;; Throw (Invalid_Argument
                (algo_name ++ " is invalid/unknown for TLS signatures")))%stmt.

(** Modelled from the spec: the members that the constructor does not
    name get their initial values in tls_handshake_state.h, which is not
    part of this file; per the spec a new handshake has both masks empty,
    every slot unset and no suite chosen yet.  The constructor itself sets
    the version to the initial record version of the handshake I/O
    object. *)
Definition Handshake_State_new (initial_record_version : Protocol_Version.t)
  : Handshake_State :=
  {| m_version := initial_record_version;
     suite := {| valid := false; kex_algo := ""; mac_algo := "" |};
     m_hand_expecting_mask := 0;
     m_hand_received_mask := 0;
     m_client_hello := None; m_server_hello := None;
     m_server_certs := None; m_server_kex := None;
     m_cert_req := None; m_server_hello_done := None;
     m_client_certs := None; m_client_kex := None;
     m_client_verify := None; m_next_protocol := None;
     m_new_session_ticket := None;
     m_server_finished := None;
     m_client_finished := None |}.

(** Member update used to pick a suite ([suite] is a public member). *)
Definition with_suite (c : Ciphersuite) (s : Handshake_State)
  : Handshake_State :=
  {| m_version := m_version s; suite := c;
     m_hand_expecting_mask := m_hand_expecting_mask s;
     m_hand_received_mask := m_hand_received_mask s;
     m_client_hello := m_client_hello s; m_server_hello := m_server_hello s;
     m_server_certs := m_server_certs s; m_server_kex := m_server_kex s;
     m_cert_req := m_cert_req s; m_server_hello_done := m_server_hello_done s;
     m_client_certs := m_client_certs s; m_client_kex := m_client_kex s;
     m_client_verify := m_client_verify s; m_next_protocol := m_next_protocol s;
     m_new_session_ticket := m_new_session_ticket s;
     m_server_finished := m_server_finished s;
     m_client_finished := m_client_finished s |}.

(** The pair list [choose_hash] reads: that of the certificate request
    when signing for client authentication, that of the client hello
    otherwise; [None] when that message is not there. *)
Definition advertised_algos (for_client_auth : bool)
  (client_hello : option Client_Hello) (cert_req : option Certificate_Req)
  : option (list sig_pair) :=
  if for_client_auth
  then option_map cert_req_supported_algos cert_req
  else option_map client_hello_supported_algos client_hello.

(** The inner loop of [choose_hash] for one local hash. *)
Definition scan_supported (sig_algo : string) (supported_algos : list sig_pair)
  (hash : string) : stmt string :=
  for_each supported_algos (fun algo =>
    when (String.eqb (fst algo) hash && String.eqb (snd algo) sig_algo)
         (Return hash)).

(** A result of [understand_sig_format] whose padding names the hash
    ["Raw"]. *)
Definition uses_Raw (r : outcome (string * Signature_Format)) : Prop :=
  r = Return ("EMSA3(Raw)", IEEE_1363)
  \/ r = Return ("EMSA1(Raw)", DER_SEQUENCE).

(** ** Sample values for the examples *)

Module Sample.

Definition policy : Policy :=
  {| allowed_signature_hashes := ["SHA-384"; "SHA-256"; "SHA-1"] |}.

Definition hello : Client_Hello :=
  {| client_hello_supported_algos := [("SHA-256", "RSA"); ("SHA-1", "RSA")];
     client_hello_session_ticket := [Byte.x0a; Byte.x0b];
     client_hello_srp_identifier := "" |}.

Definition hello_without_ticket : Client_Hello :=
  {| client_hello_supported_algos := [];
     client_hello_session_ticket := [];
     client_hello_srp_identifier := "" |}.

Definition request : Certificate_Req :=
  {| cert_req_supported_algos := [("SHA-512", "RSA"); ("SHA-256", "DSA")] |}.

Definition new_ticket : New_Session_Ticket :=
  {| ticket := [Byte.x01; Byte.x02; Byte.x03] |}.

Definition empty_new_ticket : New_Session_Ticket := {| ticket := [] |}.

Definition rsa_key : Public_Key := {| algo_name := "RSA" |}.
Definition dsa_key : Public_Key := {| algo_name := "DSA" |}.
Definition ecdsa_key : Public_Key := {| algo_name := "ECDSA" |}.

Definition suite_sha384 : Ciphersuite :=
  {| valid := true; kex_algo := "ECDH"; mac_algo := "SHA-384" |}.

Definition suite_sha1 : Ciphersuite :=
  {| valid := true; kex_algo := "RSA"; mac_algo := "SHA-1" |}.

(** A version value that is none of the named ones: 2.0. *)
Definition unrecognized_version : Protocol_Version.t :=
  Protocol_Version.make 2 0.

(** A registry that knows every name: the handle is the name. *)
Definition named_kdf (name : string) : outcome string := Return name.

(** A fresh TLS 1.0 server-side state waiting for a client hello. *)
Definition awaiting_client_hello : Handshake_State :=
  set_expected_next CLIENT_HELLO
    (Handshake_State_new Protocol_Version.TLS_V10).

End Sample.

(** ** Notions used to state further properties *)

(** [set_expected_next] called for each kind of a list in turn. *)
Definition expect_all (ks : list Handshake_Type) (s : Handshake_State)
  : Handshake_State :=
  fold_left (fun st k => set_expected_next k st) ks s.

(** The bits a call presents to the received mask: those of the kind for
    [confirm_transition_to], none for any other call. *)
Definition presented_bits (c : call) : Z :=
  match c with
  | Call_confirm_transition_to k => bitmask_for_handshake_type k
  | _ => 0
  end.

(** The calls of the transition tracker and the const members. *)
Definition is_tracker_call (c : call) : bool :=
  match c with
  | Call_confirm_transition_to _ | Call_set_expected_next _ | Const_member =>
      true
  | _ => false
  end.

(** A mask that uses only the sixteen bits the kinds are mapped to. *)
Definition mask_in_range (m : Z) : Prop := 0 <= m < 2 ^ 16.

(** The key algorithm names the negotiator knows. *)
Definition known_sig_algo (a : string) : Prop :=
  a = "RSA" \/ a = "DSA" \/ a = "ECDSA".

(** The padding and encoding the negotiator builds for a key algorithm
    and a hash name. *)
Definition format_for (a hash : string) : string * Signature_Format :=
  if String.eqb a "RSA" then ("EMSA3(" ++ hash ++ ")", IEEE_1363)
  else ("EMSA1(" ++ hash ++ ")", DER_SEQUENCE).

(** What a call stores, when it is the setter of the ClientHello slot, of
    the CertificateRequest slot, of the NewSessionTicket slot, or
    [set_version]. *)
Definition written_client_hello (c : call) : option (option Client_Hello) :=
  match c with
  | Call_client_hello p => Some p
  | _ => None
  end.

Definition written_cert_req (c : call) : option (option Certificate_Req) :=
  match c with
  | Call_cert_req p => Some p
  | _ => None
  end.

Definition written_new_session_ticket (c : call)
  : option (option New_Session_Ticket) :=
  match c with
  | Call_new_session_ticket p => Some p
  | _ => None
  end.

Definition written_version (c : call) : option Protocol_Version.t :=
  match c with
  | Call_set_version v => Some v
  | _ => None
  end.

(** The value the last writer among the calls stored, or [init] when none
    of them writes. *)
Definition last_written {A : Type} (written : call -> option A)
  (cs : list call) (init : A) : A :=
  fold_left
    (fun cur c =>
       match written c with
       | Some a => a
       | None => cur
       end)
    cs init.

(** * Properties *)

(** ** Masks *)

Lemma nonzero_true (m : Z) : nonzero m = true <-> m <> 0.
Proof.
  unfold nonzero. rewrite negb_true_iff. apply Z.eqb_neq.
Qed.

Lemma nonzero_false (m : Z) : nonzero m = false <-> m = 0.
Proof.
  unfold nonzero. rewrite negb_false_iff. apply Z.eqb_eq.
Qed.

Lemma land_lor_same (r m : Z) : Z.land (Z.lor r m) m = m.
Proof.
  apply Z.bits_inj'. intros i _.
  rewrite Z.land_spec, Z.lor_spec.
  destruct (Z.testbit r i), (Z.testbit m i); reflexivity.
Qed.

Lemma land_lor_nonzero (r m k : Z) :
  Z.land r k <> 0 -> Z.land (Z.lor r m) k <> 0.
Proof.
  intros H E. rewrite Z.land_lor_distr_l in E.
  apply Z.lor_eq_0_iff in E. tauto.
Qed.

(** Every non-[HANDSHAKE_NONE] kind has exactly one bit, below bit 16. *)
Lemma bitmask_single_bit (k : Handshake_Type) :
  k <> HANDSHAKE_NONE ->
  exists i, 0 <= i < 16 /\ bitmask_for_handshake_type k = 2 ^ i.
Proof.
  intros Hk.
  destruct k; try congruence; cbn [bitmask_for_handshake_type].
  all: match goal with
       | |- exists i, _ /\ Z.shiftl 1 ?n = _ =>
           exists n; split; [lia | reflexivity]
       end.
Qed.

Lemma bitmask_nonzero (k : Handshake_Type) :
  k <> HANDSHAKE_NONE -> bitmask_for_handshake_type k <> 0.
Proof.
  intros Hk. destruct (bitmask_single_bit k Hk) as (i & Hi & ->).
  apply Z.pow_nonzero; lia.
Qed.

(** C6. The bit mapping is injective on the handshake kinds, except that
    [CLIENT_HELLO] and [CLIENT_HELLO_SSLV2] have the same bit;
    [HANDSHAKE_NONE] has the empty mask, and every other kind has a single
    bit of a 32-bit mask. *)
Theorem bitmask_for_handshake_type_injective :
  (forall a b : Handshake_Type,
      bitmask_for_handshake_type a = bitmask_for_handshake_type b ->
      a = b
      \/ (a = CLIENT_HELLO /\ b = CLIENT_HELLO_SSLV2)
      \/ (a = CLIENT_HELLO_SSLV2 /\ b = CLIENT_HELLO))
  /\ bitmask_for_handshake_type CLIENT_HELLO_SSLV2
     = bitmask_for_handshake_type CLIENT_HELLO
  /\ bitmask_for_handshake_type HANDSHAKE_NONE = 0
  /\ (forall k : Handshake_Type,
         k <> HANDSHAKE_NONE ->
         exists i, 0 <= i < 32 /\ bitmask_for_handshake_type k = 2 ^ i).
Proof.
  split; [| split; [reflexivity | split; [reflexivity |]]].
  - intros a b.
    destruct a, b; cbn [bitmask_for_handshake_type]; intros H;
      solve [ left; reflexivity
            | right; left; split; reflexivity
            | right; right; split; reflexivity
            | vm_compute in H; discriminate H ].
  - intros k Hk. destruct (bitmask_single_bit k Hk) as (i & Hi & E).
    exists i. split; [lia | exact E].
Qed.

Lemma bitmask_for_handshake_type_injective_witness :
  CLIENT_HELLO_SSLV2 = CLIENT_HELLO
  \/ (CLIENT_HELLO_SSLV2 = CLIENT_HELLO /\ CLIENT_HELLO = CLIENT_HELLO_SSLV2)
  \/ (CLIENT_HELLO_SSLV2 = CLIENT_HELLO_SSLV2 /\ CLIENT_HELLO = CLIENT_HELLO).
Proof.
  apply (proj1 bitmask_for_handshake_type_injective
               CLIENT_HELLO_SSLV2 CLIENT_HELLO).
  reflexivity.
Defined.

(** ** Transition tracker *)

Section Transition_Properties.

Variable enum_value : Handshake_Type -> Z.

Lemma confirm_overlap (k : Handshake_Type) (s : Handshake_State) :
  Z.land (m_hand_expecting_mask s) (bitmask_for_handshake_type k) <> 0 ->
  confirm_transition_to enum_value k s
  = (with_masks 0
       (Z.lor (m_hand_received_mask s) (bitmask_for_handshake_type k)) s,
     Return tt).
Proof.
  intros H. unfold confirm_transition_to.
  cbn [with_masks m_hand_expecting_mask m_hand_received_mask].
  apply nonzero_true in H. rewrite H. reflexivity.
Qed.

Lemma confirm_no_overlap (k : Handshake_Type) (s : Handshake_State) :
  Z.land (m_hand_expecting_mask s) (bitmask_for_handshake_type k) = 0 ->
  confirm_transition_to enum_value k s
  = (with_masks (m_hand_expecting_mask s)
       (Z.lor (m_hand_received_mask s) (bitmask_for_handshake_type k)) s,
     Throw (Unexpected_Message
       ("Unexpected state transition in handshake, got "
        ++ to_string (enum_value k)
        ++ " expected " ++ to_string (m_hand_expecting_mask s)
        ++ " received "
        ++ to_string (Z.lor (m_hand_received_mask s)
                            (bitmask_for_handshake_type k))))).
Proof.
  intros H. unfold confirm_transition_to.
  cbn [with_masks m_hand_expecting_mask m_hand_received_mask].
  apply nonzero_false in H. rewrite H. reflexivity.
Qed.

(** Whatever a call does, the received mask only gains bits. *)
Lemma exec_received (c : call) (s : Handshake_State) :
  exists m,
    m_hand_received_mask (exec enum_value c s)
    = Z.lor (m_hand_received_mask s) m.
Proof.
  destruct c; cbn [exec];
    try (exists 0; rewrite Z.lor_0_r; reflexivity).
  exists (bitmask_for_handshake_type k).
  destruct (Z.eq_dec
              (Z.land (m_hand_expecting_mask s)
                      (bitmask_for_handshake_type k)) 0) as [E | E].
  - rewrite (confirm_no_overlap k s E). reflexivity.
  - rewrite (confirm_overlap k s E). reflexivity.
Qed.

Lemma exec_keeps_received_msg (k : Handshake_Type) (c : call)
  (s : Handshake_State) :
  received_handshake_msg k s = true ->
  received_handshake_msg k (exec enum_value c s) = true.
Proof.
  unfold received_handshake_msg. cbv zeta. rewrite !nonzero_true.
  intros H. destruct (exec_received c s) as (m & ->).
  apply land_lor_nonzero, H.
Qed.

Lemma run_keeps_received_msg (k : Handshake_Type) (cs : list call) :
  forall s,
    received_handshake_msg k s = true ->
    received_handshake_msg k (run enum_value cs s) = true.
Proof.
  induction cs as [| c cs IH]; intros s H; cbn [run].
  - exact H.
  - apply IH, exec_keeps_received_msg, H.
Qed.

(** Only [set_expected_next] puts a bit into an empty expecting mask. *)
Lemma exec_keeps_expecting_empty (c : call) (s : Handshake_State) :
  is_set_expected_next c = false ->
  m_hand_expecting_mask s = 0 ->
  m_hand_expecting_mask (exec enum_value c s) = 0.
Proof.
  intros Hc Hs.
  destruct c; cbn [exec]; try exact Hs; try discriminate Hc.
  rewrite confirm_no_overlap by (rewrite Hs; apply Z.land_0_l).
  exact Hs.
Qed.

Lemma run_keeps_expecting_empty (cs : list call) :
  forall s,
    forallb (fun c => negb (is_set_expected_next c)) cs = true ->
    m_hand_expecting_mask s = 0 ->
    m_hand_expecting_mask (run enum_value cs s) = 0.
Proof.
  induction cs as [| c cs IH]; intros s Hcs Hs; cbn [run].
  - exact Hs.
  - cbn [forallb] in Hcs. apply andb_true_iff in Hcs as [Hc Hcs].
    apply negb_true_iff in Hc.
    apply IH; [exact Hcs | apply exec_keeps_expecting_empty; assumption].
Qed.

(** C1. [confirm_transition_to k] returns exactly when the bit of [k]
    overlaps the expecting mask.  When it returns, the bit of [k] has been
    ORed into the received mask, [received_handshake_msg k] is true from
    then on, and the expecting mask is empty and stays empty over any
    calls other than [set_expected_next].  When it does not return, it
    throws [Unexpected_Message] with a text that carries the kind, the
    expecting mask and the received mask. *)
Theorem confirm_transition_to_spec (k : Handshake_Type)
  (s : Handshake_State) :
  let mask := bitmask_for_handshake_type k in
  let s' := fst (confirm_transition_to enum_value k s) in
  let r := snd (confirm_transition_to enum_value k s) in
  (r = Return tt <-> Z.land (m_hand_expecting_mask s) mask <> 0)
  /\ (r = Return tt ->
      m_hand_received_mask s' = Z.lor (m_hand_received_mask s) mask
      /\ m_hand_expecting_mask s' = 0
      /\ (forall cs, received_handshake_msg k (run enum_value cs s') = true)
      /\ (forall cs,
             forallb (fun c => negb (is_set_expected_next c)) cs = true ->
             m_hand_expecting_mask (run enum_value cs s') = 0))
  /\ (r <> Return tt ->
      r = Throw (Unexpected_Message
       ("Unexpected state transition in handshake, got "
        ++ to_string (enum_value k)
        ++ " expected " ++ to_string (m_hand_expecting_mask s)
        ++ " received "
        ++ to_string (Z.lor (m_hand_received_mask s)
                            (bitmask_for_handshake_type k))))).
Proof.
  cbv zeta.
  destruct (Z.eq_dec
              (Z.land (m_hand_expecting_mask s)
                      (bitmask_for_handshake_type k)) 0) as [E | E].
  - rewrite (confirm_no_overlap k s E). cbn [fst snd].
    split; [| split].
    + split; [discriminate | intros H; contradiction].
    + discriminate.
    + reflexivity.
  - rewrite (confirm_overlap k s E). cbn [fst snd].
    split; [| split].
    + split; [intros _; exact E | reflexivity].
    + intros _. split; [reflexivity | split; [reflexivity | split]].
      * intros cs. apply run_keeps_received_msg.
        unfold received_handshake_msg.
        cbn [with_masks m_hand_received_mask].
        rewrite land_lor_same. apply nonzero_true.
        intros Z0. apply E. rewrite Z0. apply Z.land_0_r.
      * intros cs Hcs. apply run_keeps_expecting_empty; [exact Hcs |].
        reflexivity.
    + intros H. contradiction H. reflexivity.
Qed.

(** C9 (as amended). For every kind [k] other than [HANDSHAKE_NONE] whose
    bit does not overlap the expecting mask, the call throws
    [Unexpected_Message] and leaves the bit of [k] in the received mask, so
    that [received_handshake_msg k] is true after the failure and stays
    true; the expecting mask is left as it was. *)
Theorem confirm_transition_to_failure_records (k : Handshake_Type)
  (s : Handshake_State) :
  k <> HANDSHAKE_NONE ->
  Z.land (m_hand_expecting_mask s) (bitmask_for_handshake_type k) = 0 ->
  let s' := fst (confirm_transition_to enum_value k s) in
  snd (confirm_transition_to enum_value k s)
  = Throw (Unexpected_Message
       ("Unexpected state transition in handshake, got "
        ++ to_string (enum_value k)
        ++ " expected " ++ to_string (m_hand_expecting_mask s)
        ++ " received "
        ++ to_string (Z.lor (m_hand_received_mask s)
                            (bitmask_for_handshake_type k))))
  /\ m_hand_received_mask s'
     = Z.lor (m_hand_received_mask s) (bitmask_for_handshake_type k)
  /\ m_hand_expecting_mask s' = m_hand_expecting_mask s
  /\ received_handshake_msg k s' = true
  /\ (forall cs, received_handshake_msg k (run enum_value cs s') = true).
Proof.
  intros Hk E. cbv zeta. rewrite (confirm_no_overlap k s E). cbn [fst snd].
  assert (R : received_handshake_msg k
                (with_masks (m_hand_expecting_mask s)
                   (Z.lor (m_hand_received_mask s)
                          (bitmask_for_handshake_type k)) s) = true).
  { unfold received_handshake_msg. cbn [with_masks m_hand_received_mask].
    rewrite land_lor_same. apply nonzero_true, bitmask_nonzero, Hk. }
  repeat split; try reflexivity; try exact R.
  intros cs. apply run_keeps_received_msg, R.
Qed.

End Transition_Properties.

Lemma confirm_transition_to_spec_witness :
  snd (confirm_transition_to tls_enum_value CLIENT_HELLO
         Sample.awaiting_client_hello) = Return tt
  /\ m_hand_expecting_mask
       (run tls_enum_value
          [Call_client_hello (Some Sample.hello);
           Call_confirm_transition_to CLIENT_KEX;
           Call_set_version Protocol_Version.TLS_V12]
          (fst (confirm_transition_to tls_enum_value CLIENT_HELLO
                  Sample.awaiting_client_hello))) = 0
  /\ received_handshake_msg CLIENT_HELLO
       (run tls_enum_value [Call_set_expected_next SERVER_HELLO_DONE]
          (fst (confirm_transition_to tls_enum_value CLIENT_HELLO
                  Sample.awaiting_client_hello))) = true
  /\ snd (confirm_transition_to tls_enum_value FINISHED
            Sample.awaiting_client_hello)
     = Throw (Unexpected_Message
                "Unexpected state transition in handshake, got 20 expected 4 received 32768").
Proof.
  pose proof (confirm_transition_to_spec tls_enum_value CLIENT_HELLO
                Sample.awaiting_client_hello) as (Hiff & Hok & _).
  pose proof (confirm_transition_to_spec tls_enum_value FINISHED
                Sample.awaiting_client_hello) as (_ & _ & Hfail).
  cbv zeta in Hiff, Hok, Hfail.
  assert (R : snd (confirm_transition_to tls_enum_value CLIENT_HELLO
                     Sample.awaiting_client_hello) = Return tt).
  { apply Hiff. vm_compute. discriminate. }
  destruct (Hok R) as (_ & _ & Hrecv & Hexp).
  split; [exact R | split; [| split]].
  - apply Hexp. reflexivity.
  - apply Hrecv.
  - apply Hfail. vm_compute. discriminate.
Defined.

Lemma confirm_transition_to_failure_records_witness :
  received_handshake_msg FINISHED
    (fst (confirm_transition_to tls_enum_value FINISHED
            Sample.awaiting_client_hello)) = true.
Proof.
  refine (proj1 (proj2 (proj2 (proj2
    (confirm_transition_to_failure_records tls_enum_value FINISHED
       Sample.awaiting_client_hello _ _))))).
  - discriminate.
  - reflexivity.
Defined.

(** C9 as stated fails at [HANDSHAKE_NONE]: its mask is empty, so the call
    is rejected whatever is expected, and [received_handshake_msg] of it is
    false afterwards. *)
Lemma confirm_transition_to_none_not_recorded :
  Z.land (m_hand_expecting_mask Sample.awaiting_client_hello)
         (bitmask_for_handshake_type HANDSHAKE_NONE) = 0
  /\ snd (confirm_transition_to tls_enum_value HANDSHAKE_NONE
            Sample.awaiting_client_hello)
     = Throw (Unexpected_Message
                "Unexpected state transition in handshake, got 255 expected 4 received 0")
  /\ received_handshake_msg HANDSHAKE_NONE
       (fst (confirm_transition_to tls_enum_value HANDSHAKE_NONE
               Sample.awaiting_client_hello)) = false.
Proof.
  split; [| split]; reflexivity.
Qed.

(** ** Protocol versions *)

Lemma version_eqb_eq (a b : Protocol_Version.t) :
  Protocol_Version.eqb a b = true <-> a = b.
Proof.
  unfold Protocol_Version.eqb. destruct a as [a1 a2], b as [b1 b2].
  cbn [Protocol_Version.major_version Protocol_Version.minor_version].
  rewrite andb_true_iff, !Z.eqb_eq. split.
  - intros [-> ->]. reflexivity.
  - intros E. injection E as -> ->. split; reflexivity.
Qed.

Lemma version_eqb_neq (a b : Protocol_Version.t) :
  Protocol_Version.eqb a b = false <-> a <> b.
Proof.
  rewrite <- version_eqb_eq. destruct (Protocol_Version.eqb a b).
  - split; [discriminate | intros H; contradiction H; reflexivity].
  - split; [discriminate | reflexivity].
Qed.

(** A version with either capability is not SSLv3. *)
Lemma tls12_not_ssl_v3 (v : Protocol_Version.t) :
  Protocol_Version.tls12_or_later v = true ->
  Protocol_Version.eqb v Protocol_Version.SSL_V3 = false.
Proof.
  intros H. apply version_eqb_neq. intros ->. discriminate H.
Qed.

(** ** PRF selection *)

Section PRF_Properties.

Variable KDF : Type.
Variable get_kdf : string -> outcome KDF.

(** The closing [throw] of [protocol_specific_prf] is never reached:
    every call ends in a lookup. *)
Lemma protocol_specific_prf_is_lookup (s : Handshake_State) :
  exists name, protocol_specific_prf KDF get_kdf s = get_kdf name.
Proof.
  unfold protocol_specific_prf.
  destruct (Protocol_Version.eqb (version s) Protocol_Version.SSL_V3).
  - eexists. reflexivity.
  - destruct (Protocol_Version.supports_ciphersuite_specific_prf (version s)).
    + destruct (String.eqb (mac_algo (suite s)) "MD5"
                || String.eqb (mac_algo (suite s)) "SHA-1");
        eexists; reflexivity.
    + eexists. reflexivity.
Qed.

Lemma protocol_specific_prf_old_tls (s : Handshake_State) :
  version s <> Protocol_Version.SSL_V3 ->
  Protocol_Version.supports_ciphersuite_specific_prf (version s) = false ->
  protocol_specific_prf KDF get_kdf s = get_kdf "TLS-PRF".
Proof.
  intros Hv Hs. unfold protocol_specific_prf.
  apply version_eqb_neq in Hv. rewrite Hv, Hs. reflexivity.
Qed.

(** C2. SSLv3 gives the lookup of SSL3-PRF.  A version with per-suite
    PRF gives TLS-12-PRF over the MAC name of the suite, but over SHA-256
    when that name is MD5 or SHA-1; SHA-384 is used as it is.  Every other
    version, TLS 1.0, TLS 1.1 and DTLS 1.0 among them, gives the lookup
    of TLS-PRF whatever the suite. *)
Theorem protocol_specific_prf_spec (s : Handshake_State) :
  (version s = Protocol_Version.SSL_V3 ->
   protocol_specific_prf KDF get_kdf s = get_kdf "SSL3-PRF")
  /\ (Protocol_Version.supports_ciphersuite_specific_prf (version s) = true ->
      (mac_algo (suite s) = "MD5" \/ mac_algo (suite s) = "SHA-1" ->
       protocol_specific_prf KDF get_kdf s = get_kdf "TLS-12-PRF(SHA-256)")
      /\ (mac_algo (suite s) <> "MD5" -> mac_algo (suite s) <> "SHA-1" ->
          protocol_specific_prf KDF get_kdf s
          = get_kdf ("TLS-12-PRF(" ++ mac_algo (suite s) ++ ")"))
      /\ (mac_algo (suite s) = "SHA-384" ->
          protocol_specific_prf KDF get_kdf s
          = get_kdf "TLS-12-PRF(SHA-384)"))
  /\ (version s <> Protocol_Version.SSL_V3 ->
      Protocol_Version.supports_ciphersuite_specific_prf (version s) = false ->
      protocol_specific_prf KDF get_kdf s = get_kdf "TLS-PRF")
  /\ (version s = Protocol_Version.TLS_V10
      \/ version s = Protocol_Version.TLS_V11
      \/ version s = Protocol_Version.DTLS_V10 ->
      protocol_specific_prf KDF get_kdf s = get_kdf "TLS-PRF").
Proof.
  split; [| split; [| split]].
  - intros Hv. unfold protocol_specific_prf. rewrite Hv. reflexivity.
  - intros Hs.
    assert (Hv : Protocol_Version.eqb (version s) Protocol_Version.SSL_V3
                 = false) by (apply tls12_not_ssl_v3, Hs).
    assert (Hno : mac_algo (suite s) <> "MD5" ->
                  mac_algo (suite s) <> "SHA-1" ->
                  protocol_specific_prf KDF get_kdf s
                  = get_kdf ("TLS-12-PRF(" ++ mac_algo (suite s) ++ ")")).
    { intros H1 H2. unfold protocol_specific_prf. rewrite Hv, Hs.
      apply String.eqb_neq in H1, H2. rewrite H1, H2. reflexivity. }
    split; [| split].
    + intros Hm. unfold protocol_specific_prf. rewrite Hv, Hs.
      destruct Hm as [-> | ->]; reflexivity.
    + exact Hno.
    + intros Hm. rewrite Hno; rewrite Hm; [reflexivity | discriminate ..].
  - apply protocol_specific_prf_old_tls.
  - intros Hv. apply protocol_specific_prf_old_tls;
      destruct Hv as [-> | [-> | ->]]; (discriminate || reflexivity).
Qed.

(** C8. For a version that is not SSLv3, has no per-suite PRF and is none
    of TLS 1.0, TLS 1.1 and DTLS 1.0, [protocol_specific_prf] does not
    reach its [throw Internal_Error]: it ends in the lookup of TLS-PRF,
    as it does for TLS 1.0. *)
Theorem protocol_specific_prf_unrecognized_version (s : Handshake_State) :
  version s <> Protocol_Version.SSL_V3 ->
  Protocol_Version.supports_ciphersuite_specific_prf (version s) = false ->
  version s <> Protocol_Version.TLS_V10 ->
  version s <> Protocol_Version.TLS_V11 ->
  version s <> Protocol_Version.DTLS_V10 ->
  protocol_specific_prf KDF get_kdf s = get_kdf "TLS-PRF".
Proof.
  intros Hv Hs _ _ _. apply protocol_specific_prf_old_tls; assumption.
Qed.

End PRF_Properties.

Lemma protocol_specific_prf_spec_witness :
  protocol_specific_prf string Sample.named_kdf
    (Handshake_State_new Protocol_Version.SSL_V3) = Return "SSL3-PRF"
  /\ protocol_specific_prf string Sample.named_kdf
       (with_suite Sample.suite_sha1
          (Handshake_State_new Protocol_Version.TLS_V12))
     = Return "TLS-12-PRF(SHA-256)"
  /\ protocol_specific_prf string Sample.named_kdf
       (with_suite Sample.suite_sha384
          (Handshake_State_new Protocol_Version.TLS_V12))
     = Return "TLS-12-PRF(SHA-384)"
  /\ protocol_specific_prf string Sample.named_kdf
       (with_suite Sample.suite_sha384
          (Handshake_State_new Protocol_Version.TLS_V10))
     = Return "TLS-PRF".
Proof.
  split; [| split; [| split]].
  - apply (proj1 (protocol_specific_prf_spec string Sample.named_kdf
                    (Handshake_State_new Protocol_Version.SSL_V3))).
    reflexivity.
  - refine (proj1 (proj1 (proj2 (protocol_specific_prf_spec string
      Sample.named_kdf
      (with_suite Sample.suite_sha1
         (Handshake_State_new Protocol_Version.TLS_V12)))) _) _).
    + reflexivity.
    + right. reflexivity.
  - refine (proj2 (proj2 (proj1 (proj2 (protocol_specific_prf_spec string
      Sample.named_kdf
      (with_suite Sample.suite_sha384
         (Handshake_State_new Protocol_Version.TLS_V12)))) _)) _).
    + reflexivity.
    + reflexivity.
  - refine (proj2 (proj2 (proj2 (protocol_specific_prf_spec string
      Sample.named_kdf
      (with_suite Sample.suite_sha384
         (Handshake_State_new Protocol_Version.TLS_V10))))) _).
    left. reflexivity.
Defined.

Lemma protocol_specific_prf_unrecognized_version_witness :
  Protocol_Version.known_version Sample.unrecognized_version = false
  /\ protocol_specific_prf string Sample.named_kdf
       (Handshake_State_new Sample.unrecognized_version)
     = Return "TLS-PRF".
Proof.
  split; [reflexivity |].
  apply (protocol_specific_prf_unrecognized_version string Sample.named_kdf
           (Handshake_State_new Sample.unrecognized_version));
    (discriminate || reflexivity).
Defined.

(** ** Hash selection *)

Section Hash_Search.

Variables (sig_algo : string) (supported_algos : list sig_pair).

Lemma scan_supported_found (hash : string) :
  In (hash, sig_algo) supported_algos ->
  scan_supported sig_algo supported_algos hash = leave (Return hash).
Proof.
  unfold scan_supported.
  induction supported_algos as [| [h a] l IH]; intros Hin.
  - destruct Hin.
  - cbn [for_each fst snd].
    destruct (String.eqb h hash && String.eqb a sig_algo) eqn:E.
    + reflexivity.
    + cbn [when seq_stmt fallthrough]. apply IH.
      destruct Hin as [Heq | Hin]; [| exact Hin].
      injection Heq as -> ->. rewrite !String.eqb_refl in E.
      discriminate E.
Qed.

Lemma scan_supported_missing (hash : string) :
  ~ In (hash, sig_algo) supported_algos ->
  scan_supported sig_algo supported_algos hash = fallthrough.
Proof.
  unfold scan_supported.
  induction supported_algos as [| [h a] l IH]; intros Hnot.
  - reflexivity.
  - cbn [for_each fst snd].
    destruct (String.eqb h hash && String.eqb a sig_algo) eqn:E.
    + apply andb_true_iff in E as [E1 E2].
      apply String.eqb_eq in E1, E2. subst h a.
      contradiction Hnot. left. reflexivity.
    + cbn [when seq_stmt fallthrough]. apply IH.
      intros Hin. apply Hnot. right. exact Hin.
Qed.

(** The outer loop stops at the first local hash that is advertised with
    [sig_algo]. *)
Lemma scan_hashes_first (pre post : list string) (hash : string) :
  (forall h, In h pre -> ~ In (h, sig_algo) supported_algos) ->
  In (hash, sig_algo) supported_algos ->
  for_each (pre ++ hash :: post)%list (scan_supported sig_algo supported_algos)
  = leave (Return hash).
Proof.
  intros Hpre Hin. induction pre as [| p pre IH]; cbn [app for_each].
  - rewrite (scan_supported_found hash Hin). reflexivity.
  - rewrite scan_supported_missing by (apply Hpre; left; reflexivity).
    cbn [seq_stmt fallthrough]. apply IH.
    intros h Hh. apply Hpre. right. exact Hh.
Qed.

Lemma scan_hashes_none (hashes : list string) :
  (forall h, In h hashes -> ~ In (h, sig_algo) supported_algos) ->
  for_each hashes (scan_supported sig_algo supported_algos)
  = fallthrough.
Proof.
  induction hashes as [| p hashes IH]; intros Hnone; cbn [for_each].
  - reflexivity.
  - rewrite scan_supported_missing by (apply Hnone; left; reflexivity).
    cbn [seq_stmt fallthrough]. apply IH.
    intros h Hh. apply Hnone. right. exact Hh.
Qed.

End Hash_Search.

(** [choose_hash] under negotiable signature algorithms, once the
    advertised list has been read. *)
Lemma choose_hash_negotiable (sig_algo : string) (v : Protocol_Version.t)
  (policy : Policy) (for_client_auth : bool)
  (client_hello : option Client_Hello) (cert_req : option Certificate_Req)
  (supported_algos : list sig_pair) :
  Protocol_Version.supports_negotiable_signature_algorithms v = true ->
  advertised_algos for_client_auth client_hello cert_req
  = Some supported_algos ->
  choose_hash sig_algo v policy for_client_auth client_hello cert_req
  = ((if negb (empty supported_algos)
      then for_each (allowed_signature_hashes policy)
                    (scan_supported sig_algo supported_algos)
      else fallthrough)
     ;;; Return "SHA-1")%stmt.
Proof.
  intros Hv Hadv. unfold choose_hash. rewrite Hv. cbn [negb body fallthrough].
  unfold advertised_algos in Hadv.
  destruct for_client_auth.
  - destruct cert_req as [m |]; [| discriminate Hadv].
    injection Hadv as <-. reflexivity.
  - destruct client_hello as [m |]; [| discriminate Hadv].
    injection Hadv as <-. reflexivity.
Qed.

(** C3. Under negotiable signature algorithms: with a non-empty advertised
    list, the result is the first hash of the local preference list that
    some advertised pair names together with the requested signature
    algorithm; with an empty advertised list, the result is SHA-1 whatever
    the local list. *)
Theorem choose_hash_first_local_preference (sig_algo : string)
  (v : Protocol_Version.t) (policy : Policy) (for_client_auth : bool)
  (client_hello : option Client_Hello) (cert_req : option Certificate_Req)
  (supported_algos : list sig_pair) :
  Protocol_Version.supports_negotiable_signature_algorithms v = true ->
  advertised_algos for_client_auth client_hello cert_req
  = Some supported_algos ->
  (supported_algos <> [] ->
   forall (pre post : list string) (hash : string),
     allowed_signature_hashes policy = (pre ++ hash :: post)%list ->
     (forall h, In h pre -> ~ In (h, sig_algo) supported_algos) ->
     In (hash, sig_algo) supported_algos ->
     choose_hash sig_algo v policy for_client_auth client_hello cert_req
     = Return hash)
  /\ (supported_algos = [] ->
      choose_hash sig_algo v policy for_client_auth client_hello cert_req
      = Return "SHA-1").
Proof.
  intros Hv Hadv.
  rewrite (choose_hash_negotiable sig_algo v policy for_client_auth
             client_hello cert_req supported_algos Hv Hadv).
  split.
  - intros Hne pre post hash Hpol Hpre Hin.
    destruct supported_algos as [| a l]; [contradiction Hne; reflexivity |].
    cbn [empty negb]. rewrite Hpol.
    rewrite (scan_hashes_first sig_algo (a :: l) pre post hash Hpre Hin).
    reflexivity.
  - intros ->. reflexivity.
Qed.

Lemma choose_hash_first_local_preference_witness :
  choose_hash "RSA" Protocol_Version.TLS_V12 Sample.policy false
    (Some Sample.hello) None = Return "SHA-256"
  /\ choose_hash "RSA" Protocol_Version.TLS_V12 Sample.policy false
       (Some Sample.hello_without_ticket) None = Return "SHA-1".
Proof.
  split.
  - refine (proj1 (choose_hash_first_local_preference "RSA"
      Protocol_Version.TLS_V12 Sample.policy false (Some Sample.hello) None
      [("SHA-256", "RSA"); ("SHA-1", "RSA")] _ _)
      _ ["SHA-384"] ["SHA-1"] "SHA-256" _ _ _).
    + reflexivity.
    + reflexivity.
    + discriminate.
    + reflexivity.
    + intros h [<- | []] [E | [E | []]]; discriminate E.
    + left. reflexivity.
  - refine (proj2 (choose_hash_first_local_preference "RSA"
      Protocol_Version.TLS_V12 Sample.policy false
      (Some Sample.hello_without_ticket) None [] _ _) _); reflexivity.
Defined.

(** C10. Under negotiable signature algorithms, when the advertised list
    is not empty but no advertised pair names a locally allowed hash
    together with the requested signature algorithm, [choose_hash] returns
    SHA-1 and throws nothing. *)
Theorem choose_hash_no_common_pair (sig_algo : string)
  (v : Protocol_Version.t) (policy : Policy) (for_client_auth : bool)
  (client_hello : option Client_Hello) (cert_req : option Certificate_Req)
  (supported_algos : list sig_pair) :
  Protocol_Version.supports_negotiable_signature_algorithms v = true ->
  advertised_algos for_client_auth client_hello cert_req
  = Some supported_algos ->
  supported_algos <> [] ->
  (forall h, In h (allowed_signature_hashes policy) ->
             ~ In (h, sig_algo) supported_algos) ->
  choose_hash sig_algo v policy for_client_auth client_hello cert_req
  = Return "SHA-1".
Proof.
  intros Hv Hadv Hne Hnone.
  rewrite (choose_hash_negotiable sig_algo v policy for_client_auth
             client_hello cert_req supported_algos Hv Hadv).
  rewrite (scan_hashes_none sig_algo supported_algos _ Hnone).
  destruct (negb (empty supported_algos)); reflexivity.
Qed.

Lemma choose_hash_no_common_pair_witness :
  choose_hash "RSA" Protocol_Version.TLS_V12 Sample.policy true
    None (Some Sample.request) = Return "SHA-1".
Proof.
  apply (choose_hash_no_common_pair "RSA" Protocol_Version.TLS_V12
           Sample.policy true None (Some Sample.request)
           [("SHA-512", "RSA"); ("SHA-256", "DSA")]).
  - reflexivity.
  - reflexivity.
  - discriminate.
  - intros h [<- | [<- | [<- | []]]] [E | [E | []]]; discriminate E.
Defined.

(** ** Understanding a signature format *)

(** Without negotiable signature algorithms the wire carries no names. *)
Lemma understand_sig_format_old_wire (s : Handshake_State) (key : Public_Key)
  (hash_algo sig_algo : string) (for_client_auth : bool) :
  Protocol_Version.supports_negotiable_signature_algorithms (version s)
  = false ->
  hash_algo <> "" \/ sig_algo <> "" ->
  understand_sig_format s key hash_algo sig_algo for_client_auth
  = Throw (Decoding_Error "Counterparty sent hash/sig IDs with old version").
Proof.
  intros Hv Hwire. unfold understand_sig_format. rewrite Hv.
  assert (E : negb (String.eqb hash_algo "")
              || negb (String.eqb sig_algo "") = true).
  { apply orb_true_iff.
    destruct Hwire as [H | H]; apply String.eqb_neq in H; rewrite H;
      [left | right]; reflexivity. }
  rewrite E. reflexivity.
Qed.

(** C4. Under negotiable signature algorithms, an empty wire hash name is
    a decoding error, and so is a wire signature algorithm name other than
    the algorithm name of the key; without negotiable signature algorithms,
    a non-empty wire hash name or signature algorithm name is a decoding
    error. *)
Theorem understand_sig_format_rejects (s : Handshake_State)
  (key : Public_Key) (hash_algo sig_algo : string) (for_client_auth : bool) :
  (Protocol_Version.supports_negotiable_signature_algorithms (version s)
   = true ->
   (hash_algo = "" ->
    understand_sig_format s key hash_algo sig_algo for_client_auth
    = Throw (Decoding_Error "Counterparty did not send hash/sig IDS"))
   /\ (sig_algo <> algo_name key ->
       exists msg,
         understand_sig_format s key hash_algo sig_algo for_client_auth
         = Throw (Decoding_Error msg)))
  /\ (Protocol_Version.supports_negotiable_signature_algorithms (version s)
      = false ->
      hash_algo <> "" \/ sig_algo <> "" ->
      understand_sig_format s key hash_algo sig_algo for_client_auth
      = Throw (Decoding_Error
                 "Counterparty sent hash/sig IDs with old version")).
Proof.
  split.
  - intros Hv. split.
    + intros ->. unfold understand_sig_format. rewrite Hv. reflexivity.
    + intros Hsig. unfold understand_sig_format. rewrite Hv.
      apply String.eqb_neq in Hsig. rewrite Hsig.
      destruct (String.eqb hash_algo ""); eexists; reflexivity.
  - apply understand_sig_format_old_wire.
Qed.

Lemma understand_sig_format_rejects_witness :
  understand_sig_format (Handshake_State_new Protocol_Version.TLS_V12)
    Sample.rsa_key "" "RSA" false
  = Throw (Decoding_Error "Counterparty did not send hash/sig IDS")
  /\ (exists msg,
         understand_sig_format (Handshake_State_new Protocol_Version.TLS_V12)
           Sample.rsa_key "SHA-256" "DSA" false
         = Throw (Decoding_Error msg))
  /\ understand_sig_format (Handshake_State_new Protocol_Version.TLS_V11)
       Sample.rsa_key "SHA-1" "" false
     = Throw (Decoding_Error "Counterparty sent hash/sig IDs with old version").
Proof.
  split; [| split].
  - refine (proj1 (proj1 (understand_sig_format_rejects
      (Handshake_State_new Protocol_Version.TLS_V12)
      Sample.rsa_key "" "RSA" false) _) _); reflexivity.
  - refine (proj2 (proj1 (understand_sig_format_rejects
      (Handshake_State_new Protocol_Version.TLS_V12)
      Sample.rsa_key "SHA-256" "DSA" false) _) _);
      [reflexivity | discriminate].
  - refine (proj2 (understand_sig_format_rejects
      (Handshake_State_new Protocol_Version.TLS_V11)
      Sample.rsa_key "SHA-1" "" false) _ _);
      [reflexivity | left; discriminate].
Defined.

(** What [understand_sig_format] does for client authentication under
    SSLv3 once the wire names have passed the check. *)
Lemma understand_sig_format_ssl_v3_client_auth (s : Handshake_State)
  (key : Public_Key) :
  version s = Protocol_Version.SSL_V3 ->
  understand_sig_format s key "" "" true
  = if String.eqb (algo_name key) "RSA" then
      Return ("EMSA3(Raw)", IEEE_1363)
    else if String.eqb (algo_name key) "DSA" then
      Return ("EMSA1(Raw)", DER_SEQUENCE)
    else if String.eqb (algo_name key) "ECDSA" then
      Return ("EMSA1(SHA-1)", DER_SEQUENCE)
    else
      Throw (Invalid_Argument
               (algo_name key ++ " is invalid/unknown for TLS signatures")).
Proof.
  intros Hv. unfold understand_sig_format. rewrite Hv.
  cbn [Protocol_Version.supports_negotiable_signature_algorithms].
  change (Protocol_Version.tls12_or_later Protocol_Version.SSL_V3) with false.
  change (Protocol_Version.eqb Protocol_Version.SSL_V3 Protocol_Version.SSL_V3)
    with true.
  cbn [String.eqb negb orb andb when seq_stmt fallthrough].
  destruct (String.eqb (algo_name key) "RSA"); [reflexivity |].
  destruct (String.eqb (algo_name key) "DSA"); [reflexivity |].
  destruct (String.eqb (algo_name key) "ECDSA"); reflexivity.
Qed.

(** C7 (as amended). For client authentication under SSLv3,
    [understand_sig_format] puts the hash name Raw in place for an RSA key
    and for a DSA key, and for no other key: an RSA key gives EMSA3(Raw), a
    DSA key gives EMSA1(Raw), an ECDSA key gives EMSA1(SHA-1), and any
    other key is an invalid argument.  The restriction to DSA holds inside
    the DSA/ECDSA branch only. *)
Theorem understand_sig_format_raw_override (s : Handshake_State)
  (key : Public_Key) (hash_algo sig_algo : string) :
  version s = Protocol_Version.SSL_V3 ->
  (uses_Raw (understand_sig_format s key hash_algo sig_algo true)
   <-> hash_algo = "" /\ sig_algo = ""
       /\ (algo_name key = "RSA" \/ algo_name key = "DSA"))
  /\ (algo_name key = "RSA" ->
      understand_sig_format s key "" "" true
      = Return ("EMSA3(Raw)", IEEE_1363))
  /\ (algo_name key = "DSA" ->
      understand_sig_format s key "" "" true
      = Return ("EMSA1(Raw)", DER_SEQUENCE))
  /\ (algo_name key = "ECDSA" ->
      understand_sig_format s key "" "" true
      = Return ("EMSA1(SHA-1)", DER_SEQUENCE)).
Proof.
  intros Hv.
  pose proof (understand_sig_format_ssl_v3_client_auth s key Hv) as Hgood.
  assert (Hold : Protocol_Version.supports_negotiable_signature_algorithms
                   (version s) = false) by (rewrite Hv; reflexivity).
  split; [| split; [| split]].
  - split.
    + intros Hraw.
      destruct (string_dec hash_algo "") as [-> | Hh].
      * destruct (string_dec sig_algo "") as [-> | Hs].
        -- split; [reflexivity | split; [reflexivity |]].
           rewrite Hgood in Hraw.
           destruct (String.eqb (algo_name key) "RSA") eqn:E1;
             [left; apply String.eqb_eq, E1 |].
           destruct (String.eqb (algo_name key) "DSA") eqn:E2;
             [right; apply String.eqb_eq, E2 |].
           destruct (String.eqb (algo_name key) "ECDSA");
             destruct Hraw as [H | H]; discriminate H.
        -- exfalso.
           rewrite (understand_sig_format_old_wire s key "" sig_algo true
                      Hold (or_intror Hs)) in Hraw.
           destruct Hraw as [H | H]; discriminate H.
      * exfalso.
        rewrite (understand_sig_format_old_wire s key hash_algo sig_algo true
                   Hold (or_introl Hh)) in Hraw.
        destruct Hraw as [H | H]; discriminate H.
    + intros (-> & -> & Hk). rewrite Hgood.
      destruct Hk as [-> | ->]; [left | right]; reflexivity.
  - intros Hk. rewrite Hgood, Hk. reflexivity.
  - intros Hk. rewrite Hgood, Hk. reflexivity.
  - intros Hk. rewrite Hgood, Hk. reflexivity.
Qed.

Lemma understand_sig_format_raw_override_witness :
  uses_Raw (understand_sig_format
              (Handshake_State_new Protocol_Version.SSL_V3)
              Sample.dsa_key "" "" true)
  /\ understand_sig_format (Handshake_State_new Protocol_Version.SSL_V3)
       Sample.ecdsa_key "" "" true
     = Return ("EMSA1(SHA-1)", DER_SEQUENCE).
Proof.
  pose proof (understand_sig_format_raw_override
                (Handshake_State_new Protocol_Version.SSL_V3)
                Sample.dsa_key "" "" eq_refl) as (Hiff & _).
  pose proof (understand_sig_format_raw_override
                (Handshake_State_new Protocol_Version.SSL_V3)
                Sample.ecdsa_key "" "" eq_refl) as (_ & _ & _ & Hec).
  split.
  - apply Hiff. split; [reflexivity | split; [reflexivity |]].
    right. reflexivity.
  - apply Hec. reflexivity.
Defined.

(** C7 as stated fails at an RSA key: its algorithm is not DSA, and for
    client authentication under SSLv3 the result names the hash Raw. *)
Lemma understand_sig_format_rsa_uses_raw :
  algo_name Sample.rsa_key <> "DSA"
  /\ understand_sig_format (Handshake_State_new Protocol_Version.SSL_V3)
       Sample.rsa_key "" "" true
     = Return ("EMSA3(Raw)", IEEE_1363)
  /\ uses_Raw (understand_sig_format
                 (Handshake_State_new Protocol_Version.SSL_V3)
                 Sample.rsa_key "" "" true).
Proof.
  split; [discriminate | split; [reflexivity | left; reflexivity]].
Qed.

(** ** Effective session ticket *)

(** C5 (as amended). A stored NewSessionTicket with non-empty ticket
    bytes is returned as it is.  When no NewSessionTicket is stored, or its
    bytes are empty, and a ClientHello is stored, the result is the session
    ticket of that ClientHello, which is empty when the ClientHello carries
    none.  When no NewSessionTicket is stored, or its bytes are empty, and
    no ClientHello is stored, the query dereferences a null pointer and
    gives no result. *)
Theorem session_ticket_spec (s : Handshake_State) :
  (forall nst,
      new_session_ticket s = Some nst -> ticket nst <> [] ->
      session_ticket s = Return (ticket nst))
  /\ (new_session_ticket s = None
      \/ (exists nst, new_session_ticket s = Some nst /\ ticket nst = []) ->
      (forall ch,
          client_hello s = Some ch ->
          session_ticket s = Return (client_hello_session_ticket ch)
          /\ (client_hello_session_ticket ch = [] ->
              session_ticket s = Return []))
      /\ (client_hello s = None -> session_ticket s = Null_Dereference)).
Proof.
  split.
  - intros nst Hn Ht. unfold session_ticket. rewrite Hn.
    destruct (ticket nst) as [| b l]; [contradiction Ht; reflexivity |].
    reflexivity.
  - intros Hn.
    assert (E : session_ticket s
                = deref (client_hello s)
                    (fun ch => Return (client_hello_session_ticket ch))).
    { unfold session_ticket.
      destruct Hn as [-> | (nst & -> & Ht)]; [reflexivity |].
      rewrite Ht. reflexivity. }
    rewrite E. split.
    + intros ch ->. cbn [deref]. split; [reflexivity |].
      intros ->. reflexivity.
    + intros ->. reflexivity.
Qed.

Lemma session_ticket_spec_witness :
  session_ticket
    (set_new_session_ticket (Some Sample.new_ticket)
       (set_client_hello (Some Sample.hello)
          (Handshake_State_new Protocol_Version.TLS_V12)))
  = Return [Byte.x01; Byte.x02; Byte.x03]
  /\ session_ticket
       (set_new_session_ticket (Some Sample.empty_new_ticket)
          (set_client_hello (Some Sample.hello)
             (Handshake_State_new Protocol_Version.TLS_V12)))
     = Return [Byte.x0a; Byte.x0b]
  /\ session_ticket
       (set_client_hello (Some Sample.hello_without_ticket)
          (Handshake_State_new Protocol_Version.TLS_V12))
     = Return []
  /\ session_ticket
       (set_new_session_ticket (Some Sample.empty_new_ticket)
          (Handshake_State_new Protocol_Version.TLS_V12))
     = Null_Dereference.
Proof.
  split; [| split; [| split]].
  - refine (proj1 (session_ticket_spec _) Sample.new_ticket _ _);
      [reflexivity | discriminate].
  - refine (proj1 (proj1 (proj2 (session_ticket_spec _) _) Sample.hello _)).
    + right. exists Sample.empty_new_ticket. split; reflexivity.
    + reflexivity.
  - refine (proj2 (proj1 (proj2 (session_ticket_spec _) _)
                     Sample.hello_without_ticket _) _).
    + left. reflexivity.
    + reflexivity.
    + reflexivity.
  - refine (proj2 (proj2 (session_ticket_spec _) _) _).
    + right. exists Sample.empty_new_ticket. split; reflexivity.
    + reflexivity.
Defined.

(** C5 as stated fails at a store with neither message: there is no
    NewSessionTicket and no ClientHello ticket, and the query does not
    give the empty ticket but dereferences the null ClientHello pointer. *)
Lemma session_ticket_of_empty_store :
  new_session_ticket (Handshake_State_new Protocol_Version.TLS_V12) = None
  /\ client_hello (Handshake_State_new Protocol_Version.TLS_V12) = None
  /\ session_ticket (Handshake_State_new Protocol_Version.TLS_V12)
     = Null_Dereference
  /\ session_ticket (Handshake_State_new Protocol_Version.TLS_V12)
     <> Return [].
Proof.
  repeat split; try reflexivity. discriminate.
Qed.

(** * Further properties of the transition tracker *)

Lemma land_lor_nonzero_iff (a b k : Z) :
  Z.land (Z.lor a b) k <> 0 <-> Z.land a k <> 0 \/ Z.land b k <> 0.
Proof.
  rewrite Z.land_lor_distr_l, Z.lor_eq_0_iff.
  destruct (Z.eq_dec (Z.land a k) 0), (Z.eq_dec (Z.land b k) 0); tauto.
Qed.

(** Two kinds overlap exactly when they have the same, non-empty, bit. *)
Lemma bitmask_overlap (k' k : Handshake_Type) :
  Z.land (bitmask_for_handshake_type k') (bitmask_for_handshake_type k) <> 0
  <-> bitmask_for_handshake_type k' = bitmask_for_handshake_type k
      /\ k <> HANDSHAKE_NONE.
Proof.
  destruct k', k; vm_compute; split;
    solve [ intros H; contradiction H; reflexivity
          | intros _; split; [reflexivity | discriminate]
          | intros _; discriminate
          | intros [H _]; discriminate H
          | intros [_ H] _; apply H; reflexivity ].
Qed.

Lemma bitmask_in_range (k : Handshake_Type) :
  mask_in_range (bitmask_for_handshake_type k).
Proof.
  unfold mask_in_range. destruct k; vm_compute; split; congruence.
Qed.

Lemma lor_in_range (a b : Z) :
  mask_in_range a -> mask_in_range b -> mask_in_range (Z.lor a b).
Proof.
  unfold mask_in_range. intros [Ha0 Ha] [Hb0 Hb].
  assert (H0 : 0 <= Z.lor a b) by (apply Z.lor_nonneg; split; assumption).
  split; [exact H0 |].
  destruct (Z.eq_dec (Z.lor a b) 0) as [E | E]; [rewrite E; reflexivity |].
  apply Z.log2_lt_pow2; [lia |].
  rewrite Z.log2_lor by assumption.
  apply Z.max_lub_lt.
  - destruct (Z.eq_dec a 0) as [-> | Na]; [reflexivity |].
    apply Z.log2_lt_pow2; lia.
  - destruct (Z.eq_dec b 0) as [-> | Nb]; [reflexivity |].
    apply Z.log2_lt_pow2; lia.
Qed.

Section Tracker_Extras.

Variable enum_value : Handshake_Type -> Z.

Lemma confirm_returns_iff (k : Handshake_Type) (s : Handshake_State) :
  snd (confirm_transition_to enum_value k s) = Return tt
  <-> Z.land (m_hand_expecting_mask s) (bitmask_for_handshake_type k) <> 0.
Proof.
  destruct (Z.eq_dec
              (Z.land (m_hand_expecting_mask s)
                      (bitmask_for_handshake_type k)) 0) as [E | E].
  - rewrite (confirm_no_overlap enum_value k s E). cbn [snd].
    split; [discriminate | intros H; contradiction].
  - rewrite (confirm_overlap enum_value k s E). cbn [snd].
    split; [intros _; exact E | reflexivity].
Qed.

(** What one call does to the two masks. *)
Lemma exec_received_exact (c : call) (s : Handshake_State) :
  m_hand_received_mask (exec enum_value c s)
  = Z.lor (m_hand_received_mask s) (presented_bits c).
Proof.
  destruct c; cbn [exec presented_bits];
    try (rewrite Z.lor_0_r; reflexivity).
  destruct (Z.eq_dec
              (Z.land (m_hand_expecting_mask s)
                      (bitmask_for_handshake_type k)) 0) as [E | E].
  - rewrite (confirm_no_overlap enum_value k s E). reflexivity.
  - rewrite (confirm_overlap enum_value k s E). reflexivity.
Qed.

Lemma exec_expecting_in_range (c : call) (s : Handshake_State) :
  mask_in_range (m_hand_expecting_mask s) ->
  mask_in_range (m_hand_expecting_mask (exec enum_value c s)).
Proof.
  intros H. destruct c; cbn [exec]; try exact H.
  - destruct (Z.eq_dec
                (Z.land (m_hand_expecting_mask s)
                        (bitmask_for_handshake_type k)) 0) as [E | E].
    + rewrite (confirm_no_overlap enum_value k s E). exact H.
    + rewrite (confirm_overlap enum_value k s E).
      cbn [fst with_masks m_hand_expecting_mask]. unfold mask_in_range. lia.
  - apply lor_in_range; [exact H | apply bitmask_in_range].
Qed.

(** X1. [set_expected_next] accumulates: after it has been called for each
    kind of a list, [confirm_transition_to k] returns exactly when the bit
    of [k] was expected before or [k] is not [HANDSHAKE_NONE] and has the
    bit of a kind of the list. *)
Theorem expect_all_confirm (ks : list Handshake_Type) (k : Handshake_Type) :
  forall s : Handshake_State,
    snd (confirm_transition_to enum_value k (expect_all ks s)) = Return tt
    <-> Z.land (m_hand_expecting_mask s) (bitmask_for_handshake_type k) <> 0
        \/ (k <> HANDSHAKE_NONE
            /\ exists k', In k' ks
                          /\ bitmask_for_handshake_type k'
                             = bitmask_for_handshake_type k).
Proof.
  induction ks as [| k0 ks IH]; intros s.
  - cbn [expect_all fold_left]. rewrite confirm_returns_iff.
    split; [intros H; left; exact H |].
    intros [H | (_ & k' & [] & _)]. exact H.
  - change (expect_all (k0 :: ks) s)
      with (expect_all ks (set_expected_next k0 s)).
    rewrite IH. cbn [set_expected_next with_masks m_hand_expecting_mask].
    rewrite land_lor_nonzero_iff, bitmask_overlap. split.
    + intros [[H | [E Hk]] | (Hk & k' & Hin & E)].
      * left. exact H.
      * right. split; [exact Hk |]. exists k0.
        split; [left; reflexivity | exact E].
      * right. split; [exact Hk |]. exists k'.
        split; [right; exact Hin | exact E].
    + intros [H | (Hk & k' & [<- | Hin] & E)].
      * left. left. exact H.
      * left. right. split; assumption.
      * right. split; [exact Hk |]. exists k'. split; assumption.
Qed.

(** X2. A second advance fails closed: once [confirm_transition_to] has
    returned, a further [confirm_transition_to] of any kind, after any calls
    other than [set_expected_next], throws [Unexpected_Message]. *)
Theorem confirm_twice_rejected (k k' : Handshake_Type) (s : Handshake_State)
  (cs : list call) :
  snd (confirm_transition_to enum_value k s) = Return tt ->
  forallb (fun c => negb (is_set_expected_next c)) cs = true ->
  exists msg,
    snd (confirm_transition_to enum_value k'
           (run enum_value cs (fst (confirm_transition_to enum_value k s))))
    = Throw (Unexpected_Message msg).
Proof.
  intros Hok Hcs. apply confirm_returns_iff in Hok.
  rewrite (confirm_overlap enum_value k s Hok). cbn [fst].
  set (s1 := with_masks 0 _ s).
  assert (E : m_hand_expecting_mask (run enum_value cs s1) = 0)
    by (apply run_keeps_expecting_empty; [exact Hcs | reflexivity]).
  rewrite confirm_no_overlap by (rewrite E; apply Z.land_0_l).
  eexists. reflexivity.
Qed.

(** X3. A rejected transition leaves the expectation as it was: after
    [confirm_transition_to k] has thrown, [confirm_transition_to k2] returns
    exactly when it would have returned before. *)
Theorem rejected_confirm_keeps_expectation (k k2 : Handshake_Type)
  (s : Handshake_State) :
  snd (confirm_transition_to enum_value k s) <> Return tt ->
  (snd (confirm_transition_to enum_value k2
          (fst (confirm_transition_to enum_value k s))) = Return tt
   <-> snd (confirm_transition_to enum_value k2 s) = Return tt).
Proof.
  intros Hrej.
  assert (E : Z.land (m_hand_expecting_mask s)
                     (bitmask_for_handshake_type k) = 0).
  { destruct (Z.eq_dec
                (Z.land (m_hand_expecting_mask s)
                        (bitmask_for_handshake_type k)) 0) as [E | E];
      [exact E |].
    contradiction Hrej. apply confirm_returns_iff, E. }
  rewrite (confirm_no_overlap enum_value k s E). cbn [fst].
  rewrite !confirm_returns_iff. reflexivity.
Qed.

(** X4. The received mask records every kind that was presented, accepted
    or not: after any calls, [received_handshake_msg k] is true exactly when
    it was true before or [k] is not [HANDSHAKE_NONE] and some
    [confirm_transition_to] among the calls had a kind with the bit of
    [k]. *)
Theorem received_after_run (k : Handshake_Type) (cs : list call) :
  forall s : Handshake_State,
    received_handshake_msg k (run enum_value cs s) = true
    <-> received_handshake_msg k s = true
        \/ (k <> HANDSHAKE_NONE
            /\ exists k', In (Call_confirm_transition_to k') cs
                          /\ bitmask_for_handshake_type k'
                             = bitmask_for_handshake_type k).
Proof.
  induction cs as [| c cs IH]; intros s.
  - cbn [run]. split; [intros H; left; exact H |].
    intros [H | (_ & k' & [] & _)]. exact H.
  - cbn [run]. rewrite IH.
    assert (Hstep : received_handshake_msg k (exec enum_value c s) = true
                    <-> received_handshake_msg k s = true
                        \/ Z.land (presented_bits c)
                                  (bitmask_for_handshake_type k) <> 0).
    { unfold received_handshake_msg. cbv zeta.
      rewrite !nonzero_true, exec_received_exact.
      apply land_lor_nonzero_iff. }
    rewrite Hstep. split.
    + intros [[H | H] | (Hk & k' & Hin & E)].
      * left. exact H.
      * right. destruct c; cbn [presented_bits] in H;
          try (rewrite Z.land_0_l in H; contradiction H; reflexivity).
        apply bitmask_overlap in H as [E Hk].
        split; [exact Hk |]. exists k0. split; [left; reflexivity | exact E].
      * right. split; [exact Hk |]. exists k'.
        split; [right; exact Hin | exact E].
    + intros [H | (Hk & k' & [-> | Hin] & E)].
      * left. left. exact H.
      * left. right. cbn [presented_bits]. apply bitmask_overlap.
        split; assumption.
      * right. split; [exact Hk |]. exists k'. split; assumption.
Qed.

(** X5. The masks never leave the sixteen bits of the kinds: when both
    masks are in that range, they are in it after any calls, so no 32-bit
    operation of the tracker wraps around. *)
Theorem masks_stay_in_range (cs : list call) :
  forall s : Handshake_State,
    mask_in_range (m_hand_expecting_mask s) ->
    mask_in_range (m_hand_received_mask s) ->
    mask_in_range (m_hand_expecting_mask (run enum_value cs s))
    /\ mask_in_range (m_hand_received_mask (run enum_value cs s)).
Proof.
  induction cs as [| c cs IH]; intros s He Hr; cbn [run].
  - split; assumption.
  - apply IH.
    + apply exec_expecting_in_range, He.
    + rewrite exec_received_exact. apply lor_in_range; [exact Hr |].
      destruct c; cbn [presented_bits];
        try (unfold mask_in_range; lia).
      apply bitmask_in_range.
Qed.

End Tracker_Extras.

Lemma confirm_twice_rejected_witness :
  exists msg,
    snd (confirm_transition_to tls_enum_value CLIENT_HELLO
           (run tls_enum_value [Call_client_hello (Some Sample.hello)]
              (fst (confirm_transition_to tls_enum_value CLIENT_HELLO
                      Sample.awaiting_client_hello))))
    = Throw (Unexpected_Message msg).
Proof.
  apply (confirm_twice_rejected tls_enum_value CLIENT_HELLO CLIENT_HELLO
           Sample.awaiting_client_hello
           [Call_client_hello (Some Sample.hello)]);
    reflexivity.
Defined.

Lemma rejected_confirm_keeps_expectation_witness :
  snd (confirm_transition_to tls_enum_value CLIENT_HELLO_SSLV2
         (fst (confirm_transition_to tls_enum_value FINISHED
                 Sample.awaiting_client_hello))) = Return tt.
Proof.
  apply (rejected_confirm_keeps_expectation tls_enum_value FINISHED
           CLIENT_HELLO_SSLV2 Sample.awaiting_client_hello).
  - discriminate.
  - reflexivity.
Defined.

Lemma masks_stay_in_range_witness :
  mask_in_range
    (m_hand_expecting_mask
       (run tls_enum_value
          [Call_confirm_transition_to FINISHED;
           Call_set_expected_next SERVER_HELLO_DONE]
          Sample.awaiting_client_hello))
  /\ mask_in_range
       (m_hand_received_mask
          (run tls_enum_value
             [Call_confirm_transition_to FINISHED;
              Call_set_expected_next SERVER_HELLO_DONE]
             Sample.awaiting_client_hello)).
Proof.
  apply (masks_stay_in_range tls_enum_value
           [Call_confirm_transition_to FINISHED;
            Call_set_expected_next SERVER_HELLO_DONE]
           Sample.awaiting_client_hello);
    unfold mask_in_range; split; vm_compute; congruence.
Defined.

(** * Further properties of the message store *)

Section Store_Extras.

Variable enum_value : Handshake_Type -> Z.

(** The tracker writes the two masks and nothing else. *)
Lemma tracker_calls_only_write_masks (cs : list call) :
  forall s : Handshake_State,
    forallb is_tracker_call cs = true ->
    run enum_value cs s
    = with_masks (m_hand_expecting_mask (run enum_value cs s))
                 (m_hand_received_mask (run enum_value cs s)) s.
Proof.
  induction cs as [| c cs IH]; intros s Hcs; cbn [run].
  - destruct s. reflexivity.
  - cbn [forallb] in Hcs. apply andb_true_iff in Hcs as [Hc Hcs].
    assert (Hone : exists e r, exec enum_value c s = with_masks e r s).
    { destruct c; try discriminate Hc; cbn [exec].
      - unfold confirm_transition_to.
        destruct (negb _); cbn [fst]; eexists; eexists; reflexivity.
      - eexists; eexists; reflexivity.
      - exists (m_hand_expecting_mask s), (m_hand_received_mask s).
        destruct s. reflexivity. }
    destruct Hone as (e & r & ->).
    rewrite (IH (with_masks e r s) Hcs) at 1. reflexivity.
Qed.

(** X6. The negotiator and the derived queries do not depend on the
    transition tracker: after any calls of [confirm_transition_to] and
    [set_expected_next], returned or thrown, the version, the suite,
    [session_ticket], [srp_identifier], [protocol_specific_prf],
    [choose_sig_format] and [understand_sig_format] give what they gave
    before. *)
Theorem tracker_calls_keep_negotiation (cs : list call)
  (s : Handshake_State) :
  forallb is_tracker_call cs = true ->
  version (run enum_value cs s) = version s
  /\ suite (run enum_value cs s) = suite s
  /\ session_ticket (run enum_value cs s) = session_ticket s
  /\ srp_identifier (run enum_value cs s) = srp_identifier s
  /\ (forall (KDF : Type) (get_kdf : string -> outcome KDF),
         protocol_specific_prf KDF get_kdf (run enum_value cs s)
         = protocol_specific_prf KDF get_kdf s)
  /\ (forall key hash_out sig_out for_client_auth policy,
         choose_sig_format (run enum_value cs s) key hash_out sig_out
           for_client_auth policy
         = choose_sig_format s key hash_out sig_out for_client_auth policy)
  /\ (forall key hash_algo sig_algo for_client_auth,
         understand_sig_format (run enum_value cs s) key hash_algo sig_algo
           for_client_auth
         = understand_sig_format s key hash_algo sig_algo for_client_auth).
Proof.
  intros Hcs. rewrite (tracker_calls_only_write_masks cs s Hcs).
  repeat split; intros; reflexivity.
Qed.

End Store_Extras.

Lemma tracker_calls_keep_negotiation_witness :
  session_ticket
    (run tls_enum_value
       [Call_set_expected_next CLIENT_HELLO;
        Call_confirm_transition_to CLIENT_HELLO;
        Call_confirm_transition_to FINISHED]
       (set_new_session_ticket (Some Sample.new_ticket)
          (Handshake_State_new Protocol_Version.TLS_V12)))
  = session_ticket
      (set_new_session_ticket (Some Sample.new_ticket)
         (Handshake_State_new Protocol_Version.TLS_V12)).
Proof.
  refine (proj1 (proj2 (proj2
    (tracker_calls_keep_negotiation tls_enum_value
       [Call_set_expected_next CLIENT_HELLO;
        Call_confirm_transition_to CLIENT_HELLO;
        Call_confirm_transition_to FINISHED]
       (set_new_session_ticket (Some Sample.new_ticket)
          (Handshake_State_new Protocol_Version.TLS_V12)) _)))).
  reflexivity.
Defined.

(** X7. [srp_identifier] is the empty string, and reads no message, unless
    the suite is valid with key exchange SRP_SHA; then it is the SRP
    identifier of the stored ClientHello, and a null dereference when no
    ClientHello is stored. *)
Theorem srp_identifier_spec (s : Handshake_State) :
  (valid (suite s) = false \/ kex_algo (suite s) <> "SRP_SHA" ->
   srp_identifier s = Return "")
  /\ (valid (suite s) = true -> kex_algo (suite s) = "SRP_SHA" ->
      (forall ch, client_hello s = Some ch ->
                  srp_identifier s = Return (client_hello_srp_identifier ch))
      /\ (client_hello s = None -> srp_identifier s = Null_Dereference)).
Proof.
  unfold srp_identifier. split.
  - intros [Hv | Hk].
    + rewrite Hv. reflexivity.
    + apply String.eqb_neq in Hk. rewrite Hk, andb_false_r. reflexivity.
  - intros Hv Hk. rewrite Hv, Hk. cbn [String.eqb andb when body leave].
    split.
    + intros ch ->. reflexivity.
    + intros ->. reflexivity.
Qed.

Lemma srp_identifier_spec_witness :
  srp_identifier
    (set_client_hello (Some Sample.hello)
       (with_suite Sample.suite_sha1
          (Handshake_State_new Protocol_Version.TLS_V12))) = Return ""
  /\ srp_identifier
       (with_suite {| valid := true; kex_algo := "SRP_SHA";
                      mac_algo := "SHA-1" |}
          (Handshake_State_new Protocol_Version.TLS_V12))
     = Null_Dereference.
Proof.
  split.
  - apply (proj1 (srp_identifier_spec _)). right. discriminate.
  - apply (proj2 (srp_identifier_spec
             (with_suite {| valid := true; kex_algo := "SRP_SHA";
                            mac_algo := "SHA-1" |}
                (Handshake_State_new Protocol_Version.TLS_V12))));
      reflexivity.
Defined.

(** * Further properties of the negotiator *)



(** [choose_hash] without negotiable signature algorithms: neither the
    policy nor a message is read. *)
Lemma choose_hash_legacy_eq (sig_algo : string) (v : Protocol_Version.t)
  (policy : Policy) (for_client_auth : bool)
  (client_hello : option Client_Hello) (cert_req : option Certificate_Req) :
  Protocol_Version.supports_negotiable_signature_algorithms v = false ->
  choose_hash sig_algo v policy for_client_auth client_hello cert_req
  = if for_client_auth && Protocol_Version.eqb v Protocol_Version.SSL_V3
    then Return "Raw"
    else if String.eqb sig_algo "RSA" then Return "TLS.Digest.0"
    else if String.eqb sig_algo "DSA" then Return "SHA-1"
    else if String.eqb sig_algo "ECDSA" then Return "SHA-1"
    else Throw (Internal_Error ("Unknown TLS signature algo " ++ sig_algo)).
Proof.
  intros Hv. unfold choose_hash. rewrite Hv. cbn [negb].
  destruct (for_client_auth
            && Protocol_Version.eqb v Protocol_Version.SSL_V3);
    [reflexivity |].
  destruct (String.eqb sig_algo "RSA"); [reflexivity |].
  destruct (String.eqb sig_algo "DSA"); [reflexivity |].
  destruct (String.eqb sig_algo "ECDSA"); reflexivity.
Qed.

Lemma client_auth_ssl_v3_false (for_client_auth : bool)
  (v : Protocol_Version.t) :
  for_client_auth = false \/ v <> Protocol_Version.SSL_V3 ->
  for_client_auth && Protocol_Version.eqb v Protocol_Version.SSL_V3 = false.
Proof.
  intros [-> | H]; [reflexivity |].
  apply version_eqb_neq in H. rewrite H. apply andb_false_r.
Qed.

Lemma unknown_sig_algo_eqb (a : string) :
  ~ known_sig_algo a ->
  String.eqb a "RSA" = false /\ String.eqb a "DSA" = false
  /\ String.eqb a "ECDSA" = false.
Proof.
  unfold known_sig_algo. intros H.
  repeat split; apply String.eqb_neq; intros E; apply H; tauto.
Qed.

(** X9. Without negotiable signature algorithms [choose_hash] reads
    neither the policy nor the messages, which may be null: for client
    authentication under SSLv3 it is Raw for every signature algorithm, and
    otherwise TLS.Digest.0 for RSA, SHA-1 for DSA and ECDSA, and an internal
    error for any other algorithm name. *)
Theorem choose_hash_legacy (sig_algo : string) (v : Protocol_Version.t)
  (policy : Policy) (for_client_auth : bool)
  (client_hello : option Client_Hello) (cert_req : option Certificate_Req) :
  Protocol_Version.supports_negotiable_signature_algorithms v = false ->
  (for_client_auth = true -> v = Protocol_Version.SSL_V3 ->
   choose_hash sig_algo v policy for_client_auth client_hello cert_req
   = Return "Raw")
  /\ (for_client_auth = false \/ v <> Protocol_Version.SSL_V3 ->
      (sig_algo = "RSA" ->
       choose_hash sig_algo v policy for_client_auth client_hello cert_req
       = Return "TLS.Digest.0")
      /\ (sig_algo = "DSA" \/ sig_algo = "ECDSA" ->
          choose_hash sig_algo v policy for_client_auth client_hello cert_req
          = Return "SHA-1")
      /\ (~ known_sig_algo sig_algo ->
          choose_hash sig_algo v policy for_client_auth client_hello cert_req
          = Throw (Internal_Error
                     ("Unknown TLS signature algo " ++ sig_algo)))).
Proof.
  intros Hv.
  rewrite (choose_hash_legacy_eq sig_algo v policy for_client_auth
             client_hello cert_req Hv).
  split.
  - intros -> ->. reflexivity.
  - intros Hno. rewrite (client_auth_ssl_v3_false _ _ Hno).
    split; [| split].
    + intros ->. reflexivity.
    + intros [-> | ->]; reflexivity.
    + intros Hu. destruct (unknown_sig_algo_eqb _ Hu) as (-> & -> & ->).
      reflexivity.
Qed.

Lemma choose_hash_legacy_witness :
  choose_hash "ECDSA" Protocol_Version.SSL_V3 Sample.policy true None None
  = Return "Raw"
  /\ choose_hash "RSA" Protocol_Version.TLS_V11 Sample.policy true None None
     = Return "TLS.Digest.0"
  /\ choose_hash "ElGamal" Protocol_Version.TLS_V10 Sample.policy false
       None None
     = Throw (Internal_Error "Unknown TLS signature algo ElGamal").
Proof.
  split; [| split].
  - refine (proj1 (choose_hash_legacy "ECDSA" Protocol_Version.SSL_V3
                     Sample.policy true None None _) _ _); reflexivity.
  - refine (proj1 (proj2 (choose_hash_legacy "RSA" Protocol_Version.TLS_V11
                            Sample.policy true None None _) _) _).
    + reflexivity.
    + right. discriminate.
    + reflexivity.
  - refine (proj2 (proj2 (proj2 (choose_hash_legacy "ElGamal"
      Protocol_Version.TLS_V10 Sample.policy false None None _) _)) _).
    + reflexivity.
    + left. reflexivity.
    + intros [H | [H | H]]; discriminate H.
Defined.

(** What the two loops of [choose_hash] can leave the function with. *)
Lemma scan_supported_inv (sig_algo : string) (supported_algos : list sig_pair)
  (hash : string) (r : outcome string) :
  scan_supported sig_algo supported_algos hash = Some r ->
  r = Return hash /\ In (hash, sig_algo) supported_algos.
Proof.
  unfold scan_supported.
  induction supported_algos as [| [h a] l IH]; cbn [for_each fst snd].
  - discriminate.
  - destruct (String.eqb h hash && String.eqb a sig_algo) eqn:E.
    + cbn [when leave seq_stmt]. intros H. injection H as <-.
      apply andb_true_iff in E as [E1 E2].
      apply String.eqb_eq in E1, E2. subst h a.
      split; [reflexivity | left; reflexivity].
    + cbn [when fallthrough seq_stmt]. intros H.
      destruct (IH H) as [Hr Hin]. split; [exact Hr | right; exact Hin].
Qed.

Lemma scan_hashes_inv (sig_algo : string) (supported_algos : list sig_pair)
  (hashes : list string) (r : outcome string) :
  for_each hashes (scan_supported sig_algo supported_algos) = Some r ->
  exists hash,
    r = Return hash /\ In hash hashes /\ In (hash, sig_algo) supported_algos.
Proof.
  induction hashes as [| h hashes IH]; cbn [for_each].
  - discriminate.
  - destruct (scan_supported sig_algo supported_algos h) as [r' |] eqn:E.
    + cbn [seq_stmt]. intros H. injection H as <-.
      destruct (scan_supported_inv _ _ _ _ E) as [-> Hin].
      exists h. split; [reflexivity | split; [left; reflexivity | exact Hin]].
    + cbn [seq_stmt]. intros H. destruct (IH H) as (hash & Hr & Hin & Hs).
      exists hash. split; [exact Hr | split; [right; exact Hin | exact Hs]].
Qed.

(** Under negotiable signature algorithms [choose_hash] returns a hash
    once the advertised list has been read. *)
Lemma choose_hash_negotiable_returns (sig_algo : string)
  (v : Protocol_Version.t) (policy : Policy) (for_client_auth : bool)
  (client_hello : option Client_Hello) (cert_req : option Certificate_Req)
  (supported_algos : list sig_pair) :
  Protocol_Version.supports_negotiable_signature_algorithms v = true ->
  advertised_algos for_client_auth client_hello cert_req
  = Some supported_algos ->
  exists hash,
    choose_hash sig_algo v policy for_client_auth client_hello cert_req
    = Return hash
    /\ (hash = "SHA-1"
        \/ (In hash (allowed_signature_hashes policy)
            /\ In (hash, sig_algo) supported_algos)).
Proof.
  intros Hv Hadv.
  rewrite (choose_hash_negotiable sig_algo v policy for_client_auth
             client_hello cert_req supported_algos Hv Hadv).
  destruct (negb (empty supported_algos)).
  - destruct (for_each (allowed_signature_hashes policy)
                (scan_supported sig_algo supported_algos)) as [r |] eqn:E.
    + destruct (scan_hashes_inv _ _ _ _ E) as (hash & -> & Hin & Hs).
      exists hash. split; [reflexivity | right; split; assumption].
    + exists "SHA-1". split; [reflexivity | left; reflexivity].
  - exists "SHA-1". split; [reflexivity | left; reflexivity].
Qed.

Lemma choose_hash_negotiable_null (sig_algo : string)
  (v : Protocol_Version.t) (policy : Policy) (for_client_auth : bool)
  (client_hello : option Client_Hello) (cert_req : option Certificate_Req) :
  Protocol_Version.supports_negotiable_signature_algorithms v = true ->
  advertised_algos for_client_auth client_hello cert_req = None ->
  choose_hash sig_algo v policy for_client_auth client_hello cert_req
  = Null_Dereference.
Proof.
  intros Hv Hadv. unfold choose_hash. rewrite Hv. cbn [negb body fallthrough].
  unfold advertised_algos in Hadv.
  destruct for_client_auth.
  - destruct cert_req; [discriminate Hadv | reflexivity].
  - destruct client_hello; [discriminate Hadv | reflexivity].
Qed.

(** X10. Under negotiable signature algorithms a hash that [choose_hash]
    returns is SHA-1 or a hash that the local policy allows and that the
    counterpart advertised together with the requested signature
    algorithm. *)
Theorem choose_hash_result_allowed (sig_algo : string)
  (v : Protocol_Version.t) (policy : Policy) (for_client_auth : bool)
  (client_hello : option Client_Hello) (cert_req : option Certificate_Req)
  (hash : string) :
  Protocol_Version.supports_negotiable_signature_algorithms v = true ->
  choose_hash sig_algo v policy for_client_auth client_hello cert_req
  = Return hash ->
  hash = "SHA-1"
  \/ (In hash (allowed_signature_hashes policy)
      /\ exists supported_algos,
           advertised_algos for_client_auth client_hello cert_req
           = Some supported_algos
           /\ In (hash, sig_algo) supported_algos).
Proof.
  intros Hv Hret.
  destruct (advertised_algos for_client_auth client_hello cert_req)
    as [supported_algos |] eqn:Hadv.
  - destruct (choose_hash_negotiable_returns sig_algo v policy for_client_auth
                client_hello cert_req supported_algos Hv Hadv)
      as (h & Hh & Hcase).
    rewrite Hh in Hret. injection Hret as <-.
    destruct Hcase as [-> | [Hin Hs]]; [left; reflexivity |].
    right. split; [exact Hin |]. exists supported_algos.
    split; [reflexivity | exact Hs].
  - rewrite (choose_hash_negotiable_null sig_algo v policy for_client_auth
               client_hello cert_req Hv Hadv) in Hret.
    discriminate Hret.
Qed.

Lemma choose_hash_result_allowed_witness :
  "SHA-256" = "SHA-1"
  \/ (In "SHA-256" (allowed_signature_hashes Sample.policy)
      /\ exists supported_algos,
           advertised_algos false (Some Sample.hello) None
           = Some supported_algos
           /\ In ("SHA-256", "RSA") supported_algos).
Proof.
  apply (choose_hash_result_allowed "RSA" Protocol_Version.TLS_V12
           Sample.policy false (Some Sample.hello) None "SHA-256");
    reflexivity.
Defined.

(** X11. Under negotiable signature algorithms [choose_hash] throws
    nothing.  It reads the certificate request when signing for client
    authentication and the client hello otherwise, and only that one: it
    returns a hash when that message is stored, whatever the other slot
    holds, and dereferences a null pointer when it is not. *)
Theorem choose_hash_negotiable_outcome (sig_algo : string)
  (v : Protocol_Version.t) (policy : Policy) (for_client_auth : bool)
  (client_hello : option Client_Hello) (cert_req : option Certificate_Req) :
  Protocol_Version.supports_negotiable_signature_algorithms v = true ->
  (forall e,
      choose_hash sig_algo v policy for_client_auth client_hello cert_req
      <> Throw e)
  /\ (choose_hash sig_algo v policy for_client_auth client_hello cert_req
      = Null_Dereference
      <-> (if for_client_auth then cert_req = None else client_hello = None))
  /\ choose_hash sig_algo v policy for_client_auth client_hello cert_req
     = choose_hash sig_algo v policy for_client_auth
         (if for_client_auth then None else client_hello)
         (if for_client_auth then cert_req else None).
Proof.
  intros Hv.
  destruct (advertised_algos for_client_auth client_hello cert_req)
    as [supported_algos |] eqn:Hadv.
  - destruct (choose_hash_negotiable_returns sig_algo v policy for_client_auth
                client_hello cert_req supported_algos Hv Hadv)
      as (h & Hh & _).
    split; [| split].
    + intros e. rewrite Hh. discriminate.
    + rewrite Hh. unfold advertised_algos in Hadv.
      destruct for_client_auth;
        [destruct cert_req | destruct client_hello];
        try discriminate Hadv; split; discriminate.
    + unfold choose_hash. rewrite Hv. destruct for_client_auth; reflexivity.
  - pose proof (choose_hash_negotiable_null sig_algo v policy for_client_auth
                  client_hello cert_req Hv Hadv) as Hn.
    split; [| split].
    + intros e. rewrite Hn. discriminate.
    + rewrite Hn. unfold advertised_algos in Hadv.
      destruct for_client_auth;
        [destruct cert_req | destruct client_hello];
        try discriminate Hadv; split; reflexivity.
    + unfold choose_hash. rewrite Hv. destruct for_client_auth; reflexivity.
Qed.

Lemma choose_hash_negotiable_outcome_witness :
  choose_hash "RSA" Protocol_Version.TLS_V12 Sample.policy true
    (Some Sample.hello) None = Null_Dereference.
Proof.
  apply (proj1 (proj2 (choose_hash_negotiable_outcome "RSA"
    Protocol_Version.TLS_V12 Sample.policy true (Some Sample.hello) None
    eq_refl))).
  reflexivity.
Defined.

(** [choose_sig_format] in terms of what [choose_hash] returned. *)
Lemma choose_sig_format_after_hash (s : Handshake_State) (key : Private_Key)
  (hash_out sig_out : string) (for_client_auth : bool) (policy : Policy)
  (hash : string) :
  choose_hash (private_algo_name key) (version s) policy for_client_auth
    (client_hello s) (cert_req s) = Return hash ->
  choose_sig_format s key hash_out sig_out for_client_auth policy
  = ((if Protocol_Version.supports_negotiable_signature_algorithms (version s)
      then (hash, private_algo_name key)
      else (hash_out, sig_out)),
     if String.eqb (private_algo_name key) "RSA" then
       Return ("EMSA3(" ++ hash ++ ")", IEEE_1363)
     else if String.eqb (private_algo_name key) "DSA"
             || String.eqb (private_algo_name key) "ECDSA" then
       Return ("EMSA1(" ++ hash ++ ")", DER_SEQUENCE)
     else
       Throw (Invalid_Argument
                (private_algo_name key
                 ++ " is invalid/unknown for TLS signatures"))).
Proof.
  intros Hh. unfold choose_sig_format. rewrite Hh.
  destruct (String.eqb (private_algo_name key) "RSA"); [reflexivity |].
  destruct (String.eqb (private_algo_name key) "DSA"
            || String.eqb (private_algo_name key) "ECDSA"); reflexivity.
Qed.

(** What [choose_sig_format] returned, read backwards. *)
Lemma choose_sig_format_inv (s : Handshake_State) (key : Private_Key)
  (hash_out sig_out : string) (for_client_auth : bool) (policy : Policy)
  (outs : string * string) (r : string * Signature_Format) :
  choose_sig_format s key hash_out sig_out for_client_auth policy
  = (outs, Return r) ->
  exists hash,
    choose_hash (private_algo_name key) (version s) policy for_client_auth
      (client_hello s) (cert_req s) = Return hash
    /\ known_sig_algo (private_algo_name key)
    /\ r = format_for (private_algo_name key) hash
    /\ outs
       = if Protocol_Version.supports_negotiable_signature_algorithms
              (version s)
         then (hash, private_algo_name key)
         else (hash_out, sig_out).
Proof.
  intros H.
  destruct (choose_hash (private_algo_name key) (version s) policy
              for_client_auth (client_hello s) (cert_req s))
    as [hash | e |] eqn:Hh.
  - rewrite (choose_sig_format_after_hash s key hash_out sig_out
               for_client_auth policy hash Hh) in H.
    exists hash. split; [reflexivity |].
    unfold format_for, known_sig_algo.
    destruct (String.eqb (private_algo_name key) "RSA") eqn:K1.
    + injection H as <- <-. apply String.eqb_eq in K1.
      split; [left; exact K1 | split; reflexivity].
    + destruct (String.eqb (private_algo_name key) "DSA") eqn:K2.
      * injection H as <- <-. apply String.eqb_eq in K2.
        split; [right; left; exact K2 | split; reflexivity].
      * destruct (String.eqb (private_algo_name key) "ECDSA") eqn:K3.
        -- injection H as <- <-. apply String.eqb_eq in K3.
           split; [right; right; exact K3 | split; reflexivity].
        -- discriminate H.
  - unfold choose_sig_format in H. rewrite Hh in H. discriminate H.
  - unfold choose_sig_format in H. rewrite Hh in H. discriminate H.
Qed.

(** X12. For a key whose algorithm is none of RSA, DSA and ECDSA,
    [choose_sig_format] never returns, and how it ends depends on the
    version.  Without negotiable signature algorithms it throws the
    internal error of [choose_hash], except for client authentication under
    SSLv3, where it throws an invalid argument; in both cases the two
    reference parameters are left alone.  With negotiable signature
    algorithms it throws an invalid argument when the message that
    [choose_hash] reads is stored, after the reference parameters have been
    overwritten with the chosen hash and the key algorithm; when that
    message is not stored it dereferences a null pointer, the reference
    parameters left alone. *)
Theorem choose_sig_format_unknown_key (s : Handshake_State)
  (key : Private_Key) (hash_out sig_out : string) (for_client_auth : bool)
  (policy : Policy) :
  ~ known_sig_algo (private_algo_name key) ->
  (Protocol_Version.supports_negotiable_signature_algorithms (version s)
   = false ->
   (for_client_auth = false \/ version s <> Protocol_Version.SSL_V3 ->
    choose_sig_format s key hash_out sig_out for_client_auth policy
    = ((hash_out, sig_out),
       Throw (Internal_Error
                ("Unknown TLS signature algo " ++ private_algo_name key))))
   /\ (for_client_auth = true -> version s = Protocol_Version.SSL_V3 ->
       choose_sig_format s key hash_out sig_out for_client_auth policy
       = ((hash_out, sig_out),
          Throw (Invalid_Argument
                   (private_algo_name key
                    ++ " is invalid/unknown for TLS signatures")))))
  /\ (Protocol_Version.supports_negotiable_signature_algorithms (version s)
      = true ->
      (forall supported_algos,
          advertised_algos for_client_auth (client_hello s) (cert_req s)
          = Some supported_algos ->
          exists hash,
            choose_hash (private_algo_name key) (version s) policy
              for_client_auth (client_hello s) (cert_req s) = Return hash
            /\ choose_sig_format s key hash_out sig_out for_client_auth
                 policy
               = ((hash, private_algo_name key),
                  Throw (Invalid_Argument
                           (private_algo_name key
                            ++ " is invalid/unknown for TLS signatures"))))
      /\ (advertised_algos for_client_auth (client_hello s) (cert_req s)
          = None ->
          choose_sig_format s key hash_out sig_out for_client_auth policy
          = ((hash_out, sig_out), Null_Dereference)))
  /\ (forall outs r,
         choose_sig_format s key hash_out sig_out for_client_auth policy
         <> (outs, Return r)).
Proof.
  intros Hu. destruct (unknown_sig_algo_eqb _ Hu) as (E1 & E2 & E3).
  split; [| split].
  - intros Hv. split.
    + intros Hno. unfold choose_sig_format.
      rewrite (choose_hash_legacy_eq _ _ policy for_client_auth
                 (client_hello s) (cert_req s) Hv).
      rewrite (client_auth_ssl_v3_false _ _ Hno), E1, E2, E3. reflexivity.
    + intros Hc Hs.
      assert (Hh : choose_hash (private_algo_name key) (version s) policy
                     for_client_auth (client_hello s) (cert_req s)
                   = Return "Raw").
      { rewrite (choose_hash_legacy_eq _ _ policy for_client_auth
                   (client_hello s) (cert_req s) Hv), Hc, Hs.
        reflexivity. }
      rewrite (choose_sig_format_after_hash s key hash_out sig_out
                 for_client_auth policy "Raw" Hh).
      rewrite Hv, E1, E2, E3. reflexivity.
  - intros Hv. split.
    + intros supported_algos Hadv.
      destruct (choose_hash_negotiable_returns (private_algo_name key)
                  (version s) policy for_client_auth (client_hello s)
                  (cert_req s) supported_algos Hv Hadv) as (hash & Hh & _).
      exists hash. split; [exact Hh |].
      rewrite (choose_sig_format_after_hash s key hash_out sig_out
                 for_client_auth policy hash Hh).
      rewrite Hv, E1, E2, E3. reflexivity.
    + intros Hadv. unfold choose_sig_format.
      rewrite (choose_hash_negotiable_null (private_algo_name key)
                 (version s) policy for_client_auth (client_hello s)
                 (cert_req s) Hv Hadv).
      reflexivity.
  - intros outs r H.
    destruct (choose_sig_format_inv s key hash_out sig_out for_client_auth
                policy outs r H) as (_ & _ & Hk & _).
    exact (Hu Hk).
Qed.

Lemma choose_sig_format_unknown_key_witness :
  choose_sig_format (Handshake_State_new Protocol_Version.TLS_V10)
    {| private_algo_name := "ElGamal" |} "" "" false Sample.policy
  = (("", ""), Throw (Internal_Error "Unknown TLS signature algo ElGamal"))
  /\ choose_sig_format (Handshake_State_new Protocol_Version.SSL_V3)
       {| private_algo_name := "ElGamal" |} "" "" true Sample.policy
     = (("", ""),
        Throw (Invalid_Argument
                 "ElGamal is invalid/unknown for TLS signatures"))
  /\ (exists hash,
         choose_hash "ElGamal" Protocol_Version.TLS_V12 Sample.policy false
           (Some Sample.hello) None = Return hash
         /\ choose_sig_format
              (set_client_hello (Some Sample.hello)
                 (Handshake_State_new Protocol_Version.TLS_V12))
              {| private_algo_name := "ElGamal" |} "" "" false Sample.policy
            = ((hash, "ElGamal"),
               Throw (Invalid_Argument
                        "ElGamal is invalid/unknown for TLS signatures")))
  /\ choose_sig_format (Handshake_State_new Protocol_Version.TLS_V12)
       {| private_algo_name := "ElGamal" |} "" "" false Sample.policy
     = (("", ""), Null_Dereference).
Proof.
  assert (Hu : ~ known_sig_algo "ElGamal")
    by (intros [H | [H | H]]; discriminate H).
  split; [| split; [| split]].
  - refine (proj1 (proj1 (choose_sig_format_unknown_key
      (Handshake_State_new Protocol_Version.TLS_V10)
      {| private_algo_name := "ElGamal" |} "" "" false Sample.policy Hu)
      _) _); [reflexivity | left; reflexivity].
  - refine (proj2 (proj1 (choose_sig_format_unknown_key
      (Handshake_State_new Protocol_Version.SSL_V3)
      {| private_algo_name := "ElGamal" |} "" "" true Sample.policy Hu)
      _) _ _); reflexivity.
  - refine (proj1 (proj1 (proj2 (choose_sig_format_unknown_key
      (set_client_hello (Some Sample.hello)
         (Handshake_State_new Protocol_Version.TLS_V12))
      {| private_algo_name := "ElGamal" |} "" "" false Sample.policy Hu))
      _) [("SHA-256", "RSA"); ("SHA-1", "RSA")] _); reflexivity.
  - refine (proj2 (proj1 (proj2 (choose_sig_format_unknown_key
      (Handshake_State_new Protocol_Version.TLS_V12)
      {| private_algo_name := "ElGamal" |} "" "" false Sample.policy Hu))
      _) _); reflexivity.
Defined.

(** [understand_sig_format] once the wire names have passed the check. *)
Lemma understand_sig_format_negotiable_eq (s : Handshake_State)
  (key : Public_Key) (hash_algo : string) (for_client_auth : bool) :
  Protocol_Version.supports_negotiable_signature_algorithms (version s)
  = true ->
  hash_algo <> "" ->
  known_sig_algo (algo_name key) ->
  understand_sig_format s key hash_algo (algo_name key) for_client_auth
  = Return (format_for (algo_name key) hash_algo).
Proof.
  intros Hv Hh Hk. unfold understand_sig_format. rewrite Hv.
  apply String.eqb_neq in Hh. rewrite Hh, String.eqb_refl.
  rewrite (tls12_not_ssl_v3 (version s) Hv), !andb_false_r.
  unfold format_for.
  destruct Hk as [-> | [-> | ->]]; reflexivity.
Qed.

Lemma understand_sig_format_legacy_eq (s : Handshake_State)
  (key : Public_Key) (for_client_auth : bool) :
  Protocol_Version.supports_negotiable_signature_algorithms (version s)
  = false ->
  known_sig_algo (algo_name key) ->
  understand_sig_format s key "" "" for_client_auth
  = Return
      (format_for (algo_name key)
         (if for_client_auth
             && Protocol_Version.eqb (version s) Protocol_Version.SSL_V3
             && negb (String.eqb (algo_name key) "ECDSA")
          then "Raw"
          else if String.eqb (algo_name key) "RSA" then "TLS.Digest.0"
          else "SHA-1")).
Proof.
  intros Hv Hk. unfold understand_sig_format. rewrite Hv.
  unfold format_for.
  destruct for_client_auth,
    (Protocol_Version.eqb (version s) Protocol_Version.SSL_V3);
    destruct Hk as [-> | [-> | ->]]; reflexivity.
Qed.

(** X13. For every key, [understand_sig_format] returns exactly when the
    key algorithm is RSA, DSA or ECDSA and the wire names fit the version:
    with negotiable signature algorithms a non-empty hash name and the
    algorithm name of the key, without them two empty names. *)
Theorem understand_sig_format_returns_iff (s : Handshake_State)
  (key : Public_Key) (hash_algo sig_algo : string) (for_client_auth : bool) :
  (exists r,
      understand_sig_format s key hash_algo sig_algo for_client_auth
      = Return r)
  <-> known_sig_algo (algo_name key)
      /\ (if Protocol_Version.supports_negotiable_signature_algorithms
               (version s)
          then hash_algo <> "" /\ sig_algo = algo_name key
          else hash_algo = "" /\ sig_algo = "").
Proof.
  split.
  - intros [r Hr]. unfold understand_sig_format in Hr.
    destruct (Protocol_Version.supports_negotiable_signature_algorithms
                (version s)).
    + destruct (String.eqb hash_algo "") eqn:E1; [discriminate Hr |].
      destruct (String.eqb sig_algo (algo_name key)) eqn:E2;
        [| discriminate Hr].
      apply String.eqb_neq in E1. apply String.eqb_eq in E2.
      split; [| split; assumption].
      unfold known_sig_algo.
      destruct (String.eqb (algo_name key) "RSA") eqn:K1;
        [left; apply String.eqb_eq, K1 |].
      destruct (String.eqb (algo_name key) "DSA") eqn:K2;
        [right; left; apply String.eqb_eq, K2 |].
      destruct (String.eqb (algo_name key) "ECDSA") eqn:K3;
        [right; right; apply String.eqb_eq, K3 | discriminate Hr].
    + destruct (String.eqb hash_algo "") eqn:E1; [| discriminate Hr].
      destruct (String.eqb sig_algo "") eqn:E2; [| discriminate Hr].
      apply String.eqb_eq in E1, E2.
      split; [| split; assumption].
      unfold known_sig_algo.
      destruct (String.eqb (algo_name key) "RSA") eqn:K1;
        [left; apply String.eqb_eq, K1 |].
      destruct (String.eqb (algo_name key) "DSA") eqn:K2;
        [right; left; apply String.eqb_eq, K2 |].
      destruct (String.eqb (algo_name key) "ECDSA") eqn:K3;
        [right; right; apply String.eqb_eq, K3 | discriminate Hr].
  - intros [Hk Hw].
    destruct (Protocol_Version.supports_negotiable_signature_algorithms
                (version s)) eqn:Hv.
    + destruct Hw as [Hh ->]. eexists.
      apply understand_sig_format_negotiable_eq; assumption.
    + destruct Hw as [-> ->]. eexists.
      apply understand_sig_format_legacy_eq; assumption.
Qed.

Lemma understand_sig_format_returns_iff_witness :
  exists r,
    understand_sig_format (Handshake_State_new Protocol_Version.TLS_V12)
      Sample.ecdsa_key "SHA-512" "ECDSA" false = Return r.
Proof.
  apply (proj2 (understand_sig_format_returns_iff
                  (Handshake_State_new Protocol_Version.TLS_V12)
                  Sample.ecdsa_key "SHA-512" "ECDSA" false)).
  split.
  - right. right. reflexivity.
  - split; [discriminate | reflexivity].
Defined.

(** X14. With negotiable signature algorithms [understand_sig_format] takes
    the wire hash name as it is: for every non-empty hash name, whatever
    the role and whatever the state holds besides the version, an RSA key
    gives EMSA3 over that name with IEEE_1363 and a DSA or ECDSA key gives
    EMSA1 over that name with DER_SEQUENCE.  The name is checked against
    no policy and no advertised list. *)
Theorem understand_sig_format_wire_hash_verbatim (s : Handshake_State)
  (key : Public_Key) (hash_algo : string) (for_client_auth : bool) :
  Protocol_Version.supports_negotiable_signature_algorithms (version s)
  = true ->
  hash_algo <> "" ->
  (algo_name key = "RSA" ->
   understand_sig_format s key hash_algo "RSA" for_client_auth
   = Return ("EMSA3(" ++ hash_algo ++ ")", IEEE_1363))
  /\ (algo_name key = "DSA" ->
      understand_sig_format s key hash_algo "DSA" for_client_auth
      = Return ("EMSA1(" ++ hash_algo ++ ")", DER_SEQUENCE))
  /\ (algo_name key = "ECDSA" ->
      understand_sig_format s key hash_algo "ECDSA" for_client_auth
      = Return ("EMSA1(" ++ hash_algo ++ ")", DER_SEQUENCE)).
Proof.
  intros Hv Hh.
  split; [| split]; intros Hk;
    pose proof (understand_sig_format_negotiable_eq s key hash_algo
                  for_client_auth Hv Hh) as H;
    rewrite Hk in H; apply H; unfold known_sig_algo; tauto.
Qed.

Lemma understand_sig_format_wire_hash_verbatim_witness :
  understand_sig_format (Handshake_State_new Protocol_Version.TLS_V12)
    Sample.rsa_key "MD5" "RSA" true
  = Return ("EMSA3(MD5)", IEEE_1363).
Proof.
  refine (proj1 (understand_sig_format_wire_hash_verbatim
    (Handshake_State_new Protocol_Version.TLS_V12) Sample.rsa_key "MD5" true
    _ _) _); [reflexivity | discriminate | reflexivity].
Defined.

(** X15. Without negotiable signature algorithms, and outside client
    authentication under SSLv3, [understand_sig_format] with empty wire
    names gives EMSA3 over TLS.Digest.0 with IEEE_1363 for an RSA key and
    EMSA1 over SHA-1 with DER_SEQUENCE for a DSA or ECDSA key. *)
Theorem understand_sig_format_legacy (s : Handshake_State)
  (key : Public_Key) (for_client_auth : bool) :
  Protocol_Version.supports_negotiable_signature_algorithms (version s)
  = false ->
  for_client_auth = false \/ version s <> Protocol_Version.SSL_V3 ->
  (algo_name key = "RSA" ->
   understand_sig_format s key "" "" for_client_auth
   = Return ("EMSA3(TLS.Digest.0)", IEEE_1363))
  /\ (algo_name key = "DSA" \/ algo_name key = "ECDSA" ->
      understand_sig_format s key "" "" for_client_auth
      = Return ("EMSA1(SHA-1)", DER_SEQUENCE)).
Proof.
  intros Hv Hno.
  pose proof (understand_sig_format_legacy_eq s key for_client_auth Hv) as H.
  rewrite (client_auth_ssl_v3_false _ _ Hno) in H. cbn [andb] in H.
  split.
  - intros Hk. rewrite H by (left; exact Hk). rewrite Hk. reflexivity.
  - intros Hk. rewrite H by (right; exact Hk).
    destruct Hk as [-> | ->]; reflexivity.
Qed.

Lemma understand_sig_format_legacy_witness :
  understand_sig_format (Handshake_State_new Protocol_Version.TLS_V11)
    Sample.rsa_key "" "" true
  = Return ("EMSA3(TLS.Digest.0)", IEEE_1363)
  /\ understand_sig_format (Handshake_State_new Protocol_Version.SSL_V3)
       Sample.dsa_key "" "" false
     = Return ("EMSA1(SHA-1)", DER_SEQUENCE).
Proof.
  split.
  - refine (proj1 (understand_sig_format_legacy
      (Handshake_State_new Protocol_Version.TLS_V11) Sample.rsa_key true
      _ _) _); [reflexivity | right; discriminate | reflexivity].
  - refine (proj2 (understand_sig_format_legacy
      (Handshake_State_new Protocol_Version.SSL_V3) Sample.dsa_key false
      _ _) _); [reflexivity | left; reflexivity | left; reflexivity].
Defined.

(** X16. Signer and verifier agree.  When [choose_sig_format], called with
    empty reference parameters and a policy that lists no empty hash name,
    returns a padding and an encoding, then [understand_sig_format], called
    in the same state and role with a public key of the same algorithm and
    with the names that [choose_sig_format] left in its reference
    parameters, returns the same padding and encoding; except for an ECDSA
    key in client authentication under SSLv3. *)
Theorem sign_verify_agree (s : Handshake_State) (private_key : Private_Key)
  (public_key : Public_Key) (for_client_auth : bool) (policy : Policy)
  (outs : string * string) (r : string * Signature_Format) :
  algo_name public_key = private_algo_name private_key ->
  ~ In "" (allowed_signature_hashes policy) ->
  ~ (private_algo_name private_key = "ECDSA" /\ for_client_auth = true
     /\ version s = Protocol_Version.SSL_V3) ->
  choose_sig_format s private_key "" "" for_client_auth policy
  = (outs, Return r) ->
  understand_sig_format s public_key (fst outs) (snd outs) for_client_auth
  = Return r.
Proof.
  intros Hkey Hpol Hex Hsign.
  destruct (choose_sig_format_inv s private_key "" "" for_client_auth policy
              outs r Hsign) as (hash & Hh & Hk & -> & ->).
  rewrite <- Hkey in *.
  destruct (Protocol_Version.supports_negotiable_signature_algorithms
              (version s)) eqn:Hv; cbn [fst snd].
  - apply understand_sig_format_negotiable_eq; [exact Hv | | exact Hk].
    intros ->.
    destruct (advertised_algos for_client_auth (client_hello s) (cert_req s))
      as [supported_algos |] eqn:Hadv.
    + destruct (choose_hash_negotiable_returns (algo_name public_key)
                  (version s) policy for_client_auth (client_hello s)
                  (cert_req s) supported_algos Hv Hadv)
        as (h & Hh' & Hcase).
      rewrite Hh in Hh'. injection Hh' as <-.
      destruct Hcase as [E | [Hin _]]; [discriminate E | exact (Hpol Hin)].
    + rewrite (choose_hash_negotiable_null (algo_name public_key) (version s)
                 policy for_client_auth (client_hello s) (cert_req s)
                 Hv Hadv) in Hh.
      discriminate Hh.
  - rewrite (understand_sig_format_legacy_eq s public_key for_client_auth
               Hv Hk).
    rewrite (choose_hash_legacy_eq _ _ policy for_client_auth
               (client_hello s) (cert_req s) Hv) in Hh.
    destruct (for_client_auth
              && Protocol_Version.eqb (version s) Protocol_Version.SSL_V3)
      eqn:Hc.
    + injection Hh as <-.
      destruct (String.eqb (algo_name public_key) "ECDSA") eqn:E;
        [| reflexivity].
      exfalso. apply Hex. apply String.eqb_eq in E.
      apply andb_true_iff in Hc as [Hc1 Hc2]. apply version_eqb_eq in Hc2.
      split; [exact E | split; assumption].
    + cbn [andb]. destruct Hk as [K | [K | K]]; rewrite K in Hh |- *;
        cbn in Hh; injection Hh as <-; reflexivity.
Qed.

Lemma sign_verify_agree_witness :
  understand_sig_format
    (set_client_hello (Some Sample.hello)
       (Handshake_State_new Protocol_Version.TLS_V12))
    Sample.rsa_key "SHA-256" "RSA" false
  = Return ("EMSA3(SHA-256)", IEEE_1363).
Proof.
  apply (sign_verify_agree
           (set_client_hello (Some Sample.hello)
              (Handshake_State_new Protocol_Version.TLS_V12))
           {| private_algo_name := "RSA" |} Sample.rsa_key false Sample.policy
           ("SHA-256", "RSA") ("EMSA3(SHA-256)", IEEE_1363)).
  - reflexivity.
  - intros [H | [H | [H | []]]]; discriminate H.
  - intros (H & _). discriminate H.
  - reflexivity.
Defined.

(** X17. The exception to the agreement: for client authentication under
    SSLv3 with an ECDSA key, [choose_sig_format] signs with EMSA1 over Raw
    while [understand_sig_format] verifies with EMSA1 over SHA-1. *)
Theorem sign_verify_differ_ecdsa_ssl_v3 (s : Handshake_State)
  (private_key : Private_Key) (public_key : Public_Key)
  (hash_out sig_out : string) (policy : Policy) :
  version s = Protocol_Version.SSL_V3 ->
  private_algo_name private_key = "ECDSA" ->
  algo_name public_key = "ECDSA" ->
  choose_sig_format s private_key hash_out sig_out true policy
  = ((hash_out, sig_out), Return ("EMSA1(Raw)", DER_SEQUENCE))
  /\ understand_sig_format s public_key hash_out sig_out true
     = (if String.eqb hash_out "" && String.eqb sig_out ""
        then Return ("EMSA1(SHA-1)", DER_SEQUENCE)
        else Throw (Decoding_Error
                      "Counterparty sent hash/sig IDs with old version")).
Proof.
  intros Hv Hpriv Hpub.
  assert (Hold : Protocol_Version.supports_negotiable_signature_algorithms
                   (version s) = false) by (rewrite Hv; reflexivity).
  split.
  - assert (Hh : choose_hash (private_algo_name private_key) (version s)
                   policy true (client_hello s) (cert_req s) = Return "Raw").
    { rewrite (choose_hash_legacy_eq _ _ policy true (client_hello s)
                 (cert_req s) Hold), Hv. reflexivity. }
    rewrite (choose_sig_format_after_hash s private_key hash_out sig_out
               true policy "Raw" Hh).
    rewrite Hold, Hpriv. reflexivity.
  - destruct (String.eqb hash_out "") eqn:E1.
    + destruct (String.eqb sig_out "") eqn:E2.
      * apply String.eqb_eq in E1, E2. subst hash_out sig_out. cbn [andb].
        rewrite (understand_sig_format_legacy_eq s public_key true Hold)
          by (right; right; exact Hpub).
        rewrite Hpub, Hv. reflexivity.
      * cbn [andb]. apply understand_sig_format_old_wire; [exact Hold |].
        right. apply String.eqb_neq, E2.
    + cbn [andb]. apply understand_sig_format_old_wire; [exact Hold |].
      left. apply String.eqb_neq, E1.
Qed.

Lemma sign_verify_differ_ecdsa_ssl_v3_witness :
  choose_sig_format (Handshake_State_new Protocol_Version.SSL_V3)
    {| private_algo_name := "ECDSA" |} "" "" true Sample.policy
  = (("", ""), Return ("EMSA1(Raw)", DER_SEQUENCE))
  /\ understand_sig_format (Handshake_State_new Protocol_Version.SSL_V3)
       Sample.ecdsa_key "" "" true
     = Return ("EMSA1(SHA-1)", DER_SEQUENCE).
Proof.
  apply (sign_verify_differ_ecdsa_ssl_v3
           (Handshake_State_new Protocol_Version.SSL_V3)
           {| private_algo_name := "ECDSA" |} Sample.ecdsa_key "" ""
           Sample.policy); reflexivity.
Defined.

(** X18. For a key of algorithm RSA, DSA or ECDSA, [choose_sig_format]
    ends as [choose_hash] does.  When [choose_hash] returns a hash, the
    result is EMSA3 over it with IEEE_1363 for RSA and EMSA1 over it with
    DER_SEQUENCE for DSA and ECDSA, and the reference parameters hold that
    hash and the key algorithm under negotiable signature algorithms and
    are left alone otherwise.  When [choose_hash] dereferences a null
    pointer, so does [choose_sig_format], with the reference parameters left
    alone. *)
Theorem choose_sig_format_known_key (s : Handshake_State) (key : Private_Key)
  (hash_out sig_out : string) (for_client_auth : bool) (policy : Policy) :
  known_sig_algo (private_algo_name key) ->
  (forall hash,
      choose_hash (private_algo_name key) (version s) policy for_client_auth
        (client_hello s) (cert_req s) = Return hash ->
      choose_sig_format s key hash_out sig_out for_client_auth policy
      = ((if Protocol_Version.supports_negotiable_signature_algorithms
               (version s)
          then (hash, private_algo_name key)
          else (hash_out, sig_out)),
         Return
           (if String.eqb (private_algo_name key) "RSA"
            then ("EMSA3(" ++ hash ++ ")", IEEE_1363)
            else ("EMSA1(" ++ hash ++ ")", DER_SEQUENCE))))
  /\ (choose_hash (private_algo_name key) (version s) policy for_client_auth
        (client_hello s) (cert_req s) = Null_Dereference ->
      choose_sig_format s key hash_out sig_out for_client_auth policy
      = ((hash_out, sig_out), Null_Dereference)).
Proof.
  intros Hk. split.
  - intros hash Hh.
    rewrite (choose_sig_format_after_hash s key hash_out sig_out
               for_client_auth policy hash Hh).
    destruct Hk as [-> | [-> | ->]]; reflexivity.
  - intros Hn. unfold choose_sig_format. rewrite Hn. reflexivity.
Qed.

Lemma choose_sig_format_known_key_witness :
  choose_sig_format
    (set_client_hello (Some Sample.hello)
       (Handshake_State_new Protocol_Version.TLS_V12))
    {| private_algo_name := "RSA" |} "" "" false Sample.policy
  = (("SHA-256", "RSA"), Return ("EMSA3(SHA-256)", IEEE_1363))
  /\ choose_sig_format (Handshake_State_new Protocol_Version.TLS_V12)
       {| private_algo_name := "DSA" |} "old" "names" true Sample.policy
     = (("old", "names"), Null_Dereference).
Proof.
  split.
  - refine (proj1 (choose_sig_format_known_key
      (set_client_hello (Some Sample.hello)
         (Handshake_State_new Protocol_Version.TLS_V12))
      {| private_algo_name := "RSA" |} "" "" false Sample.policy _)
      "SHA-256" _); [left; reflexivity | reflexivity].
  - refine (proj2 (choose_sig_format_known_key
      (Handshake_State_new Protocol_Version.TLS_V12)
      {| private_algo_name := "DSA" |} "old" "names" true Sample.policy _)
      _); [right; left; reflexivity | reflexivity].
Defined.

Section Slot_Extras.

Variable enum_value : Handshake_Type -> Z.

Lemma last_written_step {A : Type} (written : call -> option A)
  (get : Handshake_State -> A) :
  (forall c s,
      get (exec enum_value c s)
      = match written c with
        | Some a => a
        | None => get s
        end) ->
  forall cs s,
    get (run enum_value cs s) = last_written written cs (get s).
Proof.
  intros Hstep cs. unfold last_written.
  induction cs as [| c cs IH]; intros s; cbn [run fold_left].
  - reflexivity.
  - rewrite IH, Hstep. reflexivity.
Qed.

(** X19. The store does not forbid overwriting, and nothing but a setter
    writes a slot: after any calls, the ClientHello, CertificateRequest and
    NewSessionTicket slots hold what the last call of their setter stored,
    a null pointer included, and what they held before when there was no
    such call; the version is that of the last [set_version]. *)
Theorem slots_hold_last_write (cs : list call) (s : Handshake_State) :
  client_hello (run enum_value cs s)
  = last_written written_client_hello cs (client_hello s)
  /\ cert_req (run enum_value cs s)
     = last_written written_cert_req cs (cert_req s)
  /\ new_session_ticket (run enum_value cs s)
     = last_written written_new_session_ticket cs (new_session_ticket s)
  /\ version (run enum_value cs s)
     = last_written written_version cs (version s).
Proof.
  repeat split; apply last_written_step; intros c s0;
    destruct c; try reflexivity;
    cbn [exec]; unfold confirm_transition_to;
    destruct (negb _); reflexivity.
Qed.

End Slot_Extras.

Lemma expect_all_confirm_witness :
  snd (confirm_transition_to tls_enum_value CERTIFICATE_REQUEST
         (expect_all [SERVER_KEX; CERTIFICATE_REQUEST; SERVER_HELLO_DONE]
            (Handshake_State_new Protocol_Version.TLS_V12))) = Return tt.
Proof.
  apply (proj2 (expect_all_confirm tls_enum_value
                  [SERVER_KEX; CERTIFICATE_REQUEST; SERVER_HELLO_DONE]
                  CERTIFICATE_REQUEST
                  (Handshake_State_new Protocol_Version.TLS_V12))).
  right. split; [discriminate |].
  exists CERTIFICATE_REQUEST. split; [| reflexivity].
  right. left. reflexivity.
Defined.

Lemma received_after_run_witness :
  received_handshake_msg CLIENT_HELLO
    (run tls_enum_value
       [Call_set_expected_next SERVER_HELLO;
        Call_confirm_transition_to CLIENT_HELLO_SSLV2]
       (Handshake_State_new Protocol_Version.TLS_V10)) = true.
Proof.
  apply (proj2 (received_after_run tls_enum_value CLIENT_HELLO
                  [Call_set_expected_next SERVER_HELLO;
                   Call_confirm_transition_to CLIENT_HELLO_SSLV2]
                  (Handshake_State_new Protocol_Version.TLS_V10))).
  right. split; [discriminate |].
  exists CLIENT_HELLO_SSLV2. split; [| reflexivity].
  right. left. reflexivity.
Defined.
